(** * Wellness app: the analysis pipeline of [wellness_app.jsx]

    A shallow embedding of the three computations of the single-file
    React application:

    - [scoreSentiment]: lexicon-based sentiment of a note;
    - [generateRecommendations]: the rule-based recommendation engine;
    - the [data] series computed at the head of [TrendCharts]
      (per-date means of mood and sentiment).

    JavaScript numbers are IEEE 754 binary64 values.  They are modelled by
    [spec_float] with precision 53 and maximal exponent 1024, whose
    operations are executable definitions over [Z]; no primitive float is
    involved.  Numbers that the source only ever uses as small integer
    counters (the lexicon score, the per-date [count], array lengths) are
    kept in [Z] and injected with [of_Z] where they meet a division.

    Strings are sequences of UTF-16 code units.  The note text is modelled
    on the code units below 256 (Latin-1), one [ascii] per code unit, on
    which [toLowerCase] is a code-unit-wise map.  Recommendation texts are
    only ever compared for equality; their literals are kept byte for byte. *)

From Stdlib Require Import ZArith List Bool Ascii String Lia.
From Stdlib Require Import Permutation Sorted.
From Stdlib Require Import Floats.SpecFloat.
Import ListNotations.

Open Scope string_scope.
Open Scope list_scope.
Open Scope Z_scope.

(** ** JavaScript numbers *)

Module JS.

Definition prec : Z := 53.
Definition emax : Z := 1024.

Definition number : Type := spec_float.

(** The binary64 value of an integer (exact below 2^53). *)
Definition of_Z (z : Z) : number := binary_normalize prec emax z 0 false.

Definition add : number -> number -> number := SFadd prec emax.
Definition div : number -> number -> number := SFdiv prec emax.
Definition neg : number -> number := SFopp.
Definition lt : number -> number -> bool := SFltb.
Definition le : number -> number -> bool := SFleb.

Definition NaN : number := S754_nan.
Definition zero : number := S754_zero false.
Definition one : number := of_Z 1.
Definition three : number := of_Z 3.

(** A decimal literal [n/d] denotes the binary64 value nearest to it,
    which is what a correctly rounded division returns. *)
Definition lit (n d : Z) : number := div (of_Z n) (of_Z d).

(** [Math.min] and [Math.max] of two numbers: NaN is contagious and
    [-0] is below [+0]. *)
Definition Math_min (a b : number) : number :=
  match a, b with
  | S754_nan, _ | _, S754_nan => S754_nan
  | S754_zero sa, S754_zero sb => S754_zero (sa || sb)
  | _, _ => if lt b a then b else a
  end.

Definition Math_max (a b : number) : number :=
  match a, b with
  | S754_nan, _ | _, S754_nan => S754_nan
  | S754_zero sa, S754_zero sb => S754_zero (sa && sb)
  | _, _ => if lt a b then b else a
  end.

(** The values an optional numeric field of an entry can hold. *)
Inductive value : Type :=
| undefined : value
| null : value
| num : number -> value.

(** [ToBoolean]: [undefined], [null], [+0], [-0] and [NaN] are falsy. *)
Definition ToBoolean (v : value) : bool :=
  match v with
  | undefined | null => false
  | num (S754_zero _) | num S754_nan => false
  | num _ => true
  end.

(** [ToNumber], as applied by the operator [+=]. *)
Definition ToNumber (v : value) : number :=
  match v with
  | undefined => NaN
  | null => zero
  | num x => x
  end.

(** [v || d] with a numeric default. *)
Definition or_default (v : value) (d : number) : value :=
  if ToBoolean v then v else num d.

(** [v ?? d] with a numeric default. *)
Definition nullish_default (v : value) (d : number) : value :=
  match v with
  | undefined | null => num d
  | num _ => v
  end.

(** [+x.toFixed(2)].  [toFixed(2)] prints the integer [n] for which
    [n / 100] is nearest to the exact value of [x], the larger one in
    magnitude on a tie, with the sign of [x] in front; the unary plus
    reads the decimal back as the nearest binary64 value.  A finite value
    with a non-negative exponent is an integer and is read back
    unchanged, as are the infinities; NaN prints as ["NaN"].
    [hundredths m e] is that integer [n] for the magnitude [m * 2^e],
    [e < 0]. *)
Definition hundredths (m : positive) (e : Z) : Z :=
  let p := 2 ^ (- e) in (200 * Zpos m + p) / (2 * p).

Definition toFixed2 (x : number) : number :=
  match x with
  | S754_zero _ => zero
  | S754_finite s m e =>
      if 0 <=? e then x
      else
        match hundredths m e with
        | Zpos n => div (S754_finite s n 0) (of_Z 100)
        | _ => S754_zero s
        end
  | _ => x
  end.

(** [String.prototype.toLowerCase] on Latin-1 code units. *)
Definition lower_code (n : N) : N :=
  if ((65 <=? n) && (n <=? 90))%N
     || ((192 <=? n) && (n <=? 222) && negb (n =? 215))%N
  then (n + 32)%N else n.

Definition toLowerChar (c : ascii) : ascii := ascii_of_N (lower_code (N_of_ascii c)).

Fixpoint toLowerCase (s : string) : string :=
  match s with
  | EmptyString => EmptyString
  | String c s' => String (toLowerChar c) (toLowerCase s')
  end.

(** [w] occurs in [s] at position 0. *)
Fixpoint occurs_here (w s : string) : bool :=
  match w, s with
  | EmptyString, _ => true
  | String _ _, EmptyString => false
  | String a w', String b s' => Ascii.eqb a b && occurs_here w' s'
  end.

(** [s.includes(w)]: [w] occurs in [s] at some position. *)
Fixpoint includes (s w : string) : bool :=
  occurs_here w s ||
  match s with
  | EmptyString => false
  | String _ s' => includes s' w
  end.

(** [Array.prototype.sort] with a comparison function: an element goes
    after the elements it compares greater than. *)
Fixpoint insert_by {A : Type} (cmp : A -> A -> Z) (x : A) (l : list A) : list A :=
  match l with
  | [] => [x]
  | y :: l' => if 0 <? cmp x y then y :: insert_by cmp x l' else x :: l
  end.

Definition sort_by {A : Type} (cmp : A -> A -> Z) (l : list A) : list A :=
  fold_right (insert_by cmp) [] l.

End JS.

Import JS.

(** ** Sentiment scoring *)

Definition POSITIVE_WORDS : list string :=
  [ "happy"; "joy"; "great"; "good"; "content"; "excited";
    "calm"; "relaxed"; "hope"; "love"; "grateful" ].

Definition NEGATIVE_WORDS : list string :=
  [ "sad"; "depressed"; "angry"; "anxious"; "stressed"; "upset";
    "lonely"; "worried"; "tired"; "hopeless" ].

Definition array_length {A : Type} (l : list A) : Z := Z.of_nat (List.length l).

(** The two [for ... of] loops over the lexicons, threading [score]. *)
Definition count_up (normalized : string) (score : Z) (w : string) : Z :=
  if includes normalized w then score + 1 else score.

Definition count_down (normalized : string) (score : Z) (w : string) : Z :=
  if includes normalized w then score - 1 else score.

Definition rawScore (normalized : string) : Z :=
  fold_left (count_down normalized) NEGATIVE_WORDS
    (fold_left (count_up normalized) POSITIVE_WORDS 0).

(** [scoreSentiment(text)]; [None] stands for an absent ([null] or
    [undefined]) argument. *)
Definition scoreSentiment (text : option string) : number :=
  match text with
  | None => zero
  | Some EmptyString => zero
  | Some t =>
      let normalized := toLowerCase t in
      let score := rawScore normalized in
      if 0 <? score then
        Math_min one (div (of_Z score) (of_Z (array_length POSITIVE_WORDS)))
      else if score <? 0 then
        Math_max (neg one) (div (of_Z score) (of_Z (array_length NEGATIVE_WORDS)))
      else if includes normalized "!" && (String.length normalized <? 50)%nat then
        lit 1 2
      else zero
  end.

(** ** Entries *)

(** One check-in.  [mood] and [sentiment] are the two fields the analysis
    reads defensively; an entry read back from storage may lack them. *)
Record Entry : Type := mkEntry {
  eid : string;
  date : string;
  mood : value;
  note : string;
  sentiment : value;
  createdAt : string
}.

(** The entry that [handleSubmit] saves: the mood chosen on the slider
    and the sentiment of the note.  The identifier and the two dates come
    from the environment. *)
Definition handleSubmit_entry (uid date : string) (mood : Z) (note createdAt : string)
  : Entry :=
  mkEntry uid date (num (of_Z mood)) note (num (scoreSentiment (Some note))) createdAt.

(** An entry with only the fields the analysis reads. *)
Definition entry (d : string) (m s : value) : Entry := mkEntry "" d m "" s "".

(** ** Recommendation engine *)

Record Recommendation : Type := mkRec { id : string; text : string }.

Definition r_default : Recommendation :=
  mkRec "r_default" "Try a short 5-minute breathing exercise to start your day.".
Definition r_walk : Recommendation :=
  mkRec "r_walk" "Go for a 10-minute walk outside — nature helps mood.".
Definition r_ground : Recommendation :=
  mkRec "r_ground"
    "Try a grounding exercise: name 5 things you can see, 4 you can touch, 3 you can hear.".
Definition r_talk : Recommendation :=
  mkRec "r_talk" "Consider reaching out to a friend or family for emotional support.".
Definition r_breathe : Recommendation :=
  mkRec "r_breathe" "Try a 3-4-5 breathing cycle for 3 minutes.".
Definition r_walk2 : Recommendation :=
  mkRec "r_walk2" "Short physical activity (walk/stretch) can improve mood.".
Definition r_keep : Recommendation :=
  mkRec "r_keep"
    "You're doing well — keep your current routines and celebrate small wins.".
Definition r_journal : Recommendation :=
  mkRec "r_journal"
    "Try journaling: write one honest paragraph about what's on your mind.".
Definition r_sleep : Recommendation :=
  mkRec "r_sleep" "Focus on sleep hygiene: limit screens 1 hour before bed.".

(** [xs.reduce((a, b) => a + b, 0)]: a left-to-right binary64 sum. *)
Definition reduce_sum (xs : list value) : number :=
  fold_left (fun a b => add a (ToNumber b)) xs zero.

Definition moods (recentEntries : list Entry) : list value :=
  map (fun e => or_default (mood e) three) recentEntries.

Definition avgMood (recentEntries : list Entry) : number :=
  div (reduce_sum (moods recentEntries)) (of_Z (array_length (moods recentEntries))).

Definition sentiments (recentEntries : list Entry) : list value :=
  map (fun e => nullish_default (sentiment e) zero) recentEntries.

Definition avgSentiment (recentEntries : list Entry) : number :=
  div (reduce_sum (sentiments recentEntries))
      (of_Z (array_length (sentiments recentEntries))).

(** The [if / else if / else] on [avgMood]. *)
Definition mood_tier (avg : number) : list Recommendation :=
  if le avg (lit 25 10) then [r_ground; r_talk]
  else if le avg (lit 35 10) then [r_breathe; r_walk2]
  else [r_keep].

(** The [if] on [avgSentiment]. *)
Definition sentiment_overlay (avg : number) : list Recommendation :=
  if lt avg (lit (-1) 10) then [r_journal; r_sleep] else [].

(** [out.filter(...)] with the [seen] set threaded through the calls of
    the predicate. *)
Fixpoint dedupe (seen : list string) (out : list Recommendation) : list Recommendation :=
  match out with
  | [] => []
  | r :: out' =>
      if existsb (String.eqb (text r)) seen then dedupe seen out'
      else r :: dedupe (text r :: seen) out'
  end.

(** [generateRecommendations(recentEntries)]; [None] stands for an absent
    argument. *)
Definition generateRecommendations (recentEntries : option (list Entry))
  : list Recommendation :=
  match recentEntries with
  | None | Some [] => [r_default; r_walk]
  | Some es =>
      dedupe [] (mood_tier (avgMood es) ++ sentiment_overlay (avgSentiment es))%list
  end.

(** ** Trend aggregation *)

(** The accumulator stored in [dataMap] under a date. *)
Record Bucket : Type := mkBucket {
  bucket_date : string;
  moodSum : number;
  count : Z;
  sentimentSum : number
}.

(** One element of [data]. *)
Record TrendPoint : Type := mkPoint {
  point_date : string;
  point_mood : number;
  point_sentiment : number
}.

(** [dataMap] is an object used as a map from date strings to buckets.  It
    is kept as an association list in insertion order; dates are ordinary
    keys, none of them the name of a member every object inherits. *)
Definition DataMap : Type := list (string * Bucket).

Fixpoint lookup (d : string) (m : DataMap) : option Bucket :=
  match m with
  | [] => None
  | (k, b) :: m' => if String.eqb k d then Some b else lookup d m'
  end.

(** In-place update of the bucket stored under [d]. *)
Fixpoint update (d : string) (f : Bucket -> Bucket) (m : DataMap) : DataMap :=
  match m with
  | [] => []
  | (k, b) :: m' =>
      if String.eqb k d then (k, f b) :: m' else (k, b) :: update d f m'
  end.

(** The three [+=] of the loop body. *)
Definition accumulate (e : Entry) (b : Bucket) : Bucket :=
  mkBucket (bucket_date b)
           (add (moodSum b) (ToNumber (mood e)))
           (count b + 1)
           (add (sentimentSum b) (ToNumber (nullish_default (sentiment e) zero))).

(** The body of [entries.forEach]. *)
Definition forEach_body (dataMap : DataMap) (e : Entry) : DataMap :=
  let d := date e in
  let dataMap :=
    match lookup d dataMap with
    | None => (dataMap ++ [(d, mkBucket d zero 0 zero)])%list
    | Some _ => dataMap
    end in
  update d (accumulate e) dataMap.

Definition build_dataMap (entries : list Entry) : DataMap :=
  fold_left forEach_body entries [].

(** [Object.values(dataMap)].  The values are listed in insertion order
    (keys that read as array indices would come first); the array is
    sorted next, and the order of enumeration does not affect the result
    (lemma [sort_by_enumeration_order]). *)
Definition Object_values (m : DataMap) : list Bucket := map snd m.

Definition to_point (d : Bucket) : TrendPoint :=
  mkPoint (bucket_date d)
          (toFixed2 (div (moodSum d) (of_Z (count d))))
          (toFixed2 (div (sentimentSum d) (of_Z (count d)))).

(** [(a, b) => (a.date > b.date ? 1 : -1)]; strings compare by code unit.
    The function never answers 0, but no two elements of the series share
    a date, and on distinct dates it is a strict total order: the sorted
    array is the same whatever algorithm the engine runs
    (lemma [sorted_permutation_unique]). *)
Definition by_date (a b : TrendPoint) : Z :=
  if String.ltb (point_date b) (point_date a) then 1 else -1.

(** The [data] array of [TrendCharts]. *)
Definition TrendCharts_data (entries : list Entry) : list TrendPoint :=
  sort_by by_date (map to_point (Object_values (build_dataMap entries))).

(** ** Comparison of numbers and enumeration of ranges *)

(** Structural equality of numbers, as a boolean. *)
Definition same (x y : number) : bool :=
  match x, y with
  | S754_nan, S754_nan => true
  | S754_zero s, S754_zero s' => Bool.eqb s s'
  | S754_infinity s, S754_infinity s' => Bool.eqb s s'
  | S754_finite s m e, S754_finite s' m' e' =>
      Bool.eqb s s' && Pos.eqb m m' && Z.eqb e e'
  | _, _ => false
  end.

(** The integers from [lo] to [hi]. *)
Definition Zrange (lo hi : Z) : list Z :=
  map (fun i => lo + Z.of_nat i) (seq 0 (Z.to_nat (hi - lo + 1))).

(** [lo <= x <= hi] on numbers; false when [x] is NaN. *)
Definition between (lo hi x : number) : bool := le lo x && le x hi.

(** ** Dates *)

Definition is_digit (c : ascii) : bool :=
  ((48 <=? N_of_ascii c) && (N_of_ascii c <=? 57))%N.

(** A calendar date as the date input and [todayISO] produce it,
    [YYYY-MM-DD].  Such a string is an ordinary key of [dataMap]: it names
    no member that a plain object inherits ([constructor], [toString],
    [__proto__], ...), for which the source finds a truthy value under
    [dataMap[d]] and keeps no bucket.  Statements that a date has its
    point are made for these dates. *)
Definition iso_date (d : string) : bool :=
  match list_ascii_of_string d with
  | [y1; y2; y3; y4; s1; m1; m2; s2; d1; d2] =>
      forallb is_digit [y1; y2; y3; y4; m1; m2; d1; d2]
      && Ascii.eqb s1 "-" && Ascii.eqb s2 "-"
  | _ => false
  end.

(** ** Specification-side definitions *)

(** The hit counts of the specification: the number of lexicon terms
    present in the lower-cased text. *)
Definition hits (lexicon : list string) (t : string) : Z :=
  array_length (filter (includes (toLowerCase t)) lexicon).

Definition posHits : string -> Z := hits POSITIVE_WORDS.
Definition negHits : string -> Z := hits NEGATIVE_WORDS.
Definition Pn : Z := 11.
Definition Nn : Z := 10.

(** The mood an entry contributes to [avgMood]: 3 for a falsy [mood]
    field, the field itself otherwise. *)
Definition effective_mood (v : value) : number :=
  match v with
  | undefined | null | num (S754_zero _) | num S754_nan => three
  | num x => x
  end.

(** The averaging rule in the words of the specification: a mood outside
    the range from 1 to 5 counts as 3. *)
Definition spec_mood (v : value) : number :=
  match v with
  | num x => if between one (of_Z 5) x then x else three
  | _ => three
  end.

Definition spec_avgMood (recentEntries : list Entry) : number :=
  div (fold_left add (map (fun e => spec_mood (mood e)) recentEntries) zero)
      (of_Z (array_length recentEntries)).

(** A mood as the check-in form produces it, or a missing one. *)
Definition slider_mood (v : value) : Prop :=
  v = undefined \/ v = null \/ exists m : Z, 1 <= m <= 5 /\ v = num (of_Z m).

(** The integer a slider mood contributes to the average. *)
Definition mood_points (v : value) : Z :=
  match v with
  | num x =>
      match find (fun m => same x (of_Z m)) (Zrange 1 5) with
      | Some m => m
      | None => 3
      end
  | _ => 3
  end.

Definition sum_points (es : list Entry) : Z :=
  fold_right (fun e acc => mood_points (mood e) + acc) 0 es.

(** The entries of one date, in input order, and the sums the
    specification takes over them. *)
Definition group (d : string) (entries : list Entry) : list Entry :=
  filter (fun e => String.eqb (date e) d) entries.

Definition sum_mood (es : list Entry) : number :=
  fold_left (fun a e => add a (ToNumber (mood e))) es zero.

Definition sum_sentiment (es : list Entry) : number :=
  fold_left (fun a e => add a (ToNumber (nullish_default (sentiment e) zero))) es zero.

(** What the map holds after the loop has run over [es]: one bucket per
    date seen, with that date's running sums and count. *)
Definition bucket_of (d : string) (es : list Entry) : Bucket :=
  mkBucket d (sum_mood (group d es)) (array_length (group d es))
           (sum_sentiment (group d es)).

Definition describes (m : DataMap) (es : list Entry) : Prop :=
  NoDup (map fst m) /\
  (forall d, In d (map fst m) <-> In d (map date es)) /\
  (forall d b, lookup d m = Some b -> b = bucket_of d es).

(** The comparison function [(a, b) => (key(a) > key(b) ? 1 : -1)] and the
    strict order it sorts into. *)
Definition ascending_by {A : Type} (key : A -> string) (a b : A) : Z :=
  if String.ltb (key b) (key a) then 1 else -1.

Definition before_by {A : Type} (key : A -> string) (a b : A) : Prop :=
  String.ltb (key a) (key b) = true.

(** ** Sample inputs *)

(** A single entry whose mood lies outside the slider's range. *)
Definition window_mood7 : list Entry := [entry "2024-01-01" (num (of_Z 7)) (num zero)].

(** Moods 4 and 5 with sentiment -0.5 each. *)
Definition window_high_mood_low_sentiment : list Entry :=
  [ entry "2024-01-01" (num (of_Z 4)) (num (lit (-1) 2));
    entry "2024-01-02" (num (of_Z 5)) (num (lit (-1) 2)) ].

(** Six check-ins at mood 3; the notes score -0.1, -0.2, -0.3, 0, 0, 0. *)
Definition window_newest_first : list Entry :=
  [ handleSubmit_entry "a" "2024-01-06" 3 "sad" "";
    handleSubmit_entry "b" "2024-01-05" 3 "sad angry" "";
    handleSubmit_entry "c" "2024-01-04" 3 "sad angry tired" "";
    handleSubmit_entry "d" "2024-01-03" 3 "" "";
    handleSubmit_entry "e" "2024-01-02" 3 "" "";
    handleSubmit_entry "f" "2024-01-01" 3 "" "" ].

Definition window_oldest_first : list Entry := rev window_newest_first.

(** The three check-ins of the worked example, with arbitrary sentiments. *)
Definition example_entries (s1 s2 s3 : value) : list Entry :=
  [ entry "2024-01-01" (num (of_Z 3)) s1;
    entry "2024-01-01" (num (of_Z 5)) s2;
    entry "2024-01-02" (num (of_Z 1)) s3 ].

(** Two check-ins of one day, the second read back without its mood. *)
Definition entries_missing_mood : list Entry :=
  [ entry "2024-01-01" (num (of_Z 4)) (num (lit 1 2));
    entry "2024-01-01" undefined undefined ].

(** ** The components around the analysis *)

(** [Math.round]: the nearest integer, the upper one on a tie.  A value
    in [[-0.5, -0]] gives [-0]; zeros, infinities and NaN are returned as
    they are, and so is a finite value with a non-negative exponent, which
    is an integer already. *)
Definition Math_round (x : number) : number :=
  match x with
  | S754_finite s m e =>
      if 0 <=? e then x
      else
        let p := 2 ^ (- e) in
        let n := ((if s then - (2 * Zpos m) else 2 * Zpos m) + p) / (2 * p) in
        if n =? 0 then S754_zero s else of_Z n
  | _ => x
  end.

Definition mul : number -> number -> number := SFmul prec emax.

(** [MoodPill]: the label shown for a mood, an element of a five-element
    array read at [Math.min(4, Math.max(0, val - 1))].  [None] stands for
    the [undefined] of an index out of range. *)
Definition MOOD_LABELS : list string :=
  [ "😞 Low"; "😐 Meh"; "🙂 Okay"; "😊 Good"; "😁 Great" ].

Definition MoodPill_index (val : Z) : Z := Z.min 4 (Z.max 0 (val - 1)).

Definition MoodPill_label (val : Z) : option string :=
  if MoodPill_index val <? 0 then None
  else nth_error MOOD_LABELS (Z.to_nat (MoodPill_index val)).

(** [RecentEntries]: the sentiment printed for an entry,
    [Math.round((e.sentiment ?? 0) * 100) / 100]. *)
Definition shown_sentiment (e : Entry) : number :=
  div (Math_round (mul (ToNumber (nullish_default (sentiment e) zero)) (of_Z 100)))
      (of_Z 100).

(** [Recommendations]: the engine runs on [entries.slice(0, 10)]. *)
Definition Recommendations_recs (entries : list Entry) : list Recommendation :=
  generateRecommendations (Some (firstn 10 entries)).

(** [loadEntries].  What storage holds is parsed by [JSON.parse], here a
    parameter that answers [None] where the original throws or does not
    yield an array of records; a parsed record may lack its date.
    [today] is the value of [todayISO()]. *)
Record ParsedEntry : Type := mkParsed {
  parsed_id : string;
  parsed_date : option string;
  parsed_mood : value;
  parsed_note : string;
  parsed_sentiment : value;
  parsed_createdAt : string
}.

(** [{ ...p, date: p.date || todayISO() }] *)
Definition with_date (today : string) (p : ParsedEntry) : Entry :=
  mkEntry (parsed_id p)
          (match parsed_date p with
           | None | Some EmptyString => today
           | Some d => d
           end)
          (parsed_mood p) (parsed_note p) (parsed_sentiment p) (parsed_createdAt p).

Definition loadEntries (JSON_parse : string -> option (list ParsedEntry))
                       (today : string) (raw : option string) : list Entry :=
  match raw with
  | None | Some EmptyString => []
  | Some r =>
      match JSON_parse r with
      | None => []
      | Some parsed => map (with_date today) parsed
      end
  end.

(** [handleDelete]: [prev.filter((p) => p.id !== id)]. *)
Definition handleDelete (id : string) (prev : list Entry) : list Entry :=
  filter (fun p => negb (String.eqb (eid p) id)) prev.

(** [(a, b) => (a.date < b.date ? 1 : -1)], the comparison function of
    the entry list. *)
Definition newest_first (a b : Entry) : Z :=
  if String.ltb (date a) (date b) then 1 else -1.

(** [handleSave]: [[entry, ...prev].sort(...)].  Two entries of one date
    compare inconsistently, so the order the engine leaves them in is its
    own; [sort] is a parameter. *)
Definition handleSave (sort : (Entry -> Entry -> Z) -> list Entry -> list Entry)
                      (e : Entry) (prev : list Entry) : list Entry :=
  sort newest_first (e :: prev).

(** The [stats] of [WellnessApp]: both averages are [null] without
    entries. *)
Record Stats : Type := mkStats { stats_avgMood : value; stats_avgSentiment : value }.

Definition stats (entries : list Entry) : Stats :=
  match entries with
  | [] => mkStats null null
  | _ =>
      let avgMood :=
        div (fold_left (fun a b => add a (ToNumber (mood b))) entries zero)
            (of_Z (array_length entries)) in
      let avgSentiment :=
        div (fold_left
               (fun a b => add a (ToNumber (nullish_default (sentiment b) zero)))
               entries zero)
            (of_Z (array_length entries)) in
      mkStats (num (toFixed2 avgMood)) (num (toFixed2 avgSentiment))
  end.

(** The mood tier decided on integers: [s] mood points over [n] entries
    average at most 2.5 when [2 * s <= 5 * n], at most 3.5 when
    [2 * s <= 7 * n]. *)
Definition tier_by_points (s n : Z) : list Recommendation :=
  if 2 * s <=? 5 * n then [r_ground; r_talk]
  else if 2 * s <=? 7 * n then [r_breathe; r_walk2]
  else [r_keep].

(** A sentiment field that is missing or zero, as for a check-in without
    a note. *)
Definition no_sentiment (v : value) : Prop :=
  match v with
  | undefined | null | num (S754_zero _) => True
  | num _ => False
  end.

(** The order [handleSave] aims at: dates never increase down the list. *)
Definition newest_first_order (a b : Entry) : Prop :=
  String.leb (date b) (date a) = true.

(** An entry as the check-in form saves it, with a mood from 1 to 5. *)
Definition from_form (e : Entry) : Prop :=
  exists (uid date note createdAt : string) (mood : Z),
    1 <= mood <= 5 /\ e = handleSubmit_entry uid date mood note createdAt.

(** ** Classes of numbers *)

Definition is_nan (x : number) : bool :=
  match x with S754_nan => true | _ => false end.

(** Neither NaN nor an infinity. *)
Definition is_finite (x : number) : bool :=
  match x with S754_finite _ _ _ | S754_zero _ => true | _ => false end.

(** The values [scoreSentiment] can return. *)
Definition score_values : list number :=
  (map (fun k => lit k 11) (Zrange 1 11) ++ map (fun k => lit k 10) (Zrange (-10) (-1))
   ++ [lit 1 2; zero])%list.

(** A seventh check-in, on the day of the newest one of the window. *)
Definition seventh_entry : Entry :=
  handleSubmit_entry "g" "2024-01-06" 4 "calm evening" "".

(** * Properties *)

(** ** Numbers *)

Lemma same_eq (x y : number) : same x y = true -> x = y.
Proof.
  destruct x as [s | s | | s m e], y as [s' | s' | | s' m' e']; simpl;
    try discriminate; try reflexivity.
  - intros H. apply Bool.eqb_prop in H. now subst.
  - intros H. apply Bool.eqb_prop in H. now subst.
  - intros H. apply andb_prop in H as [H He]. apply andb_prop in H as [Hs Hm].
    apply Bool.eqb_prop in Hs. apply Pos.eqb_eq in Hm. apply Z.eqb_eq in He.
    now subst.
Qed.

Lemma Zrange_In (lo hi k : Z) : lo <= k <= hi -> In k (Zrange lo hi).
Proof.
  intros H. unfold Zrange. apply in_map_iff.
  exists (Z.to_nat (k - lo)). split; [lia |].
  apply in_seq. lia.
Qed.

Lemma forallb_Zrange (P : Z -> bool) (lo hi : Z) :
  forallb P (Zrange lo hi) = true -> forall k, lo <= k <= hi -> P k = true.
Proof.
  intros H k Hk. rewrite forallb_forall in H. apply H, Zrange_In, Hk.
Qed.

(** The literals of the source, in binary. *)
Lemma lit_values :
  lit 1 2 = S754_finite false 4503599627370496 (-53) /\
  lit 25 10 = S754_finite false 5629499534213120 (-51) /\
  lit 35 10 = S754_finite false 7881299347898368 (-51) /\
  lit (-1) 10 = S754_finite true 7205759403792794 (-56) /\
  one = S754_finite false 4503599627370496 (-52) /\
  three = S754_finite false 6755399441055744 (-51).
Proof. repeat split; vm_compute; reflexivity. Qed.

(** The score counter stays within the range on which binary64 addition
    of 1 is exact, so keeping it in [Z] loses nothing. *)
Lemma counter_exact (k : Z) :
  -11 <= k <= 11 ->
  add (of_Z k) one = of_Z (k + 1) /\ add (of_Z k) (neg one) = of_Z (k - 1).
Proof.
  intros Hk.
  pose (P := fun k => same (add (of_Z k) one) (of_Z (k + 1))
                      && same (add (of_Z k) (neg one)) (of_Z (k - 1))).
  assert (H : P k = true).
  { apply (forallb_Zrange P (-11) 11); [vm_compute; reflexivity | exact Hk]. }
  apply andb_prop in H as [H1 H2]. split; apply same_eq; assumption.
Qed.

(** [hundredths m e] is the integer nearest to [100 * m * 2^e], the upper
    one on a tie: with [p = 2^(-e)], [n - 1/2 <= 100 * m / p < n + 1/2]. *)
Lemma hundredths_nearest (m : positive) (e : Z) :
  e < 0 ->
  let p := 2 ^ (- e) in
  let n := hundredths m e in
  2 * p * n - p <= 200 * Zpos m < 2 * p * n + p.
Proof.
  intros He p n. subst n. unfold hundredths. fold p.
  assert (Hp : 0 < p) by (apply Z.pow_pos_nonneg; lia).
  pose proof (Z.div_mod (200 * Zpos m + p) (2 * p) ltac:(lia)) as Hdm.
  pose proof (Z.mod_pos_bound (200 * Zpos m + p) (2 * p) ltac:(lia)) as Hmod.
  lia.
Qed.

(** [+x.toFixed(2)] on a few values: 1/3 gives 0.33; 1.005 and 2.675 lie
    just below the tie and round down; 0.125 is an exact tie and rounds up;
    a negative value that rounds to nothing keeps its sign; NaN stays NaN. *)
Example toFixed2_samples :
  toFixed2 (lit 1 3) = lit 33 100 /\
  toFixed2 (lit 1005 1000) = one /\
  toFixed2 (lit 2675 1000) = lit 267 100 /\
  toFixed2 (lit 125 1000) = lit 13 100 /\
  toFixed2 (lit (-1) 1000) = S754_zero true /\
  toFixed2 (of_Z 4) = of_Z 4 /\
  toFixed2 NaN = NaN.
Proof. repeat split; vm_compute; reflexivity. Qed.

(** ** Strings *)

Lemma toLowerCase_length (s : string) :
  String.length (toLowerCase s) = String.length s.
Proof. induction s as [| c s IH]; simpl; congruence. Qed.

Lemma toLowerChar_bang (c : ascii) : toLowerChar c = "!"%char <-> c = "!"%char.
Proof.
  destruct c as [[] [] [] [] [] [] [] []]; vm_compute; split; intros H;
    solve [reflexivity | discriminate H].
Qed.

Lemma occurs_here_bang (s : string) :
  occurs_here "!" (toLowerCase s) = occurs_here "!" s.
Proof.
  destruct s as [| c s]; [reflexivity |].
  cbn [toLowerCase occurs_here]. f_equal.
  destruct (Ascii.eqb_spec "!" c) as [E | E].
  - subst c. reflexivity.
  - apply Ascii.eqb_neq. intros E'. symmetry in E'.
    apply (proj1 (toLowerChar_bang c)) in E'. congruence.
Qed.

Lemma includes_bang (s : string) :
  includes (toLowerCase s) "!" = includes s "!".
Proof.
  induction s as [| c s IH]; [reflexivity |].
  change (includes (toLowerCase (String c s)) "!")
    with (occurs_here "!" (toLowerCase (String c s)) || includes (toLowerCase s) "!").
  change (includes (String c s) "!")
    with (occurs_here "!" (String c s) || includes s "!").
  now rewrite occurs_here_bang, IH.
Qed.

(** ** Sentiment scoring *)

Lemma fold_count_up (n : string) (l : list string) (s : Z) :
  fold_left (count_up n) l s = s + array_length (filter (includes n) l).
Proof.
  unfold array_length. revert s.
  induction l as [| w l IH]; intros s; [simpl; lia |].
  cbn [fold_left filter]. rewrite IH. unfold count_up.
  destruct (includes n w); cbn [List.length]; lia.
Qed.

Lemma fold_count_down (n : string) (l : list string) (s : Z) :
  fold_left (count_down n) l s = s - array_length (filter (includes n) l).
Proof.
  unfold array_length. revert s.
  induction l as [| w l IH]; intros s; [simpl; lia |].
  cbn [fold_left filter]. rewrite IH. unfold count_down.
  destruct (includes n w); cbn [List.length]; lia.
Qed.

(** The loop counter is the difference of the two hit counts. *)
Lemma rawScore_hits (t : string) :
  rawScore (toLowerCase t) = posHits t - negHits t.
Proof.
  unfold rawScore. rewrite fold_count_down, fold_count_up.
  unfold posHits, negHits, hits. lia.
Qed.

Lemma hits_bounds (lexicon : list string) (t : string) :
  0 <= hits lexicon t <= array_length lexicon.
Proof.
  unfold hits, array_length. split; [lia |].
  apply inj_le, filter_length_le.
Qed.

Lemma rawScore_bounds (t : string) : - Nn <= rawScore (toLowerCase t) <= Pn.
Proof.
  rewrite rawScore_hits.
  pose proof (hits_bounds POSITIVE_WORDS t) as Hp.
  pose proof (hits_bounds NEGATIVE_WORDS t) as Hn.
  unfold posHits, negHits, Pn, Nn.
  change (array_length POSITIVE_WORDS) with 11 in Hp.
  change (array_length NEGATIVE_WORDS) with 10 in Hn. lia.
Qed.

(** The body of [scoreSentiment] on a non-empty text. *)
Lemma scoreSentiment_unfold (t : string) :
  t <> "" ->
  scoreSentiment (Some t) =
    let score := posHits t - negHits t in
    if 0 <? score then Math_min one (div (of_Z score) (of_Z Pn))
    else if score <? 0 then Math_max (neg one) (div (of_Z score) (of_Z Nn))
    else if includes t "!" && (String.length t <? 50)%nat then lit 1 2
    else zero.
Proof.
  intros Ht. destruct t as [| c t]; [congruence |].
  unfold scoreSentiment.
  rewrite rawScore_hits, includes_bang, toLowerCase_length. reflexivity.
Qed.

Lemma hits_empty : posHits "" = 0 /\ negHits "" = 0.
Proof. split; reflexivity. Qed.

Lemma positive_branch_range (k : Z) :
  1 <= k <= 11 ->
  between (neg one) one (Math_min one (div (of_Z k) (of_Z Pn))) = true.
Proof.
  apply (forallb_Zrange
           (fun k => between (neg one) one (Math_min one (div (of_Z k) (of_Z Pn))))).
  vm_compute. reflexivity.
Qed.

Lemma negative_branch_range (k : Z) :
  -10 <= k <= -1 ->
  between (neg one) one (Math_max (neg one) (div (of_Z k) (of_Z Nn))) = true.
Proof.
  apply (forallb_Zrange
           (fun k => between (neg one) one (Math_max (neg one) (div (of_Z k) (of_Z Nn))))).
  vm_compute. reflexivity.
Qed.

Example scoreSentiment_samples :
  scoreSentiment (Some "I am so happy and grateful today!") = lit 2 11 /\
  scoreSentiment (Some "Nothing to report.") = zero /\
  scoreSentiment (Some "What a day!") = lit 1 2 /\
  scoreSentiment (Some "SAD and Tired") = lit (-2) 10.
Proof. repeat split; vm_compute; reflexivity. Qed.

(** C1, as amended.  When the raw score [posHits - negHits] is strictly
    positive, [scoreSentiment] returns [min(1, (posHits - negHits) / Pn)];
    when it is strictly negative, it returns
    [max(-1, (posHits - negHits) / Nn)].  The quotient is taken of the
    signed difference, not of the winning side's hit count. *)
Theorem scoreSentiment_normalizes_difference (t : string) :
  (0 < posHits t - negHits t ->
   scoreSentiment (Some t) =
     Math_min one (div (of_Z (posHits t - negHits t)) (of_Z Pn))) /\
  (posHits t - negHits t < 0 ->
   scoreSentiment (Some t) =
     Math_max (neg one) (div (of_Z (posHits t - negHits t)) (of_Z Nn))).
Proof.
  destruct (string_dec t "") as [-> | Ht].
  - destruct hits_empty as [-> ->]. split; intros H; lia.
  - rewrite (scoreSentiment_unfold t Ht). cbv zeta. split; intros H.
    + apply Z.ltb_lt in H. now rewrite H.
    + assert (H0 : (0 <? posHits t - negHits t) = false) by (apply Z.ltb_ge; lia).
      apply Z.ltb_lt in H. now rewrite H0, H.
Qed.

Lemma scoreSentiment_normalizes_difference_witness :
  (0 < posHits "happy joy sad" - negHits "happy joy sad" /\
   scoreSentiment (Some "happy joy sad") =
     Math_min one
       (div (of_Z (posHits "happy joy sad" - negHits "happy joy sad")) (of_Z Pn))) /\
  (posHits "happy sad angry" - negHits "happy sad angry" < 0 /\
   scoreSentiment (Some "happy sad angry") =
     Math_max (neg one)
       (div (of_Z (posHits "happy sad angry" - negHits "happy sad angry")) (of_Z Nn))).
Proof.
  split; split.
  - vm_compute. reflexivity.
  - apply (proj1 (scoreSentiment_normalizes_difference "happy joy sad")).
    vm_compute. reflexivity.
  - vm_compute. reflexivity.
  - apply (proj2 (scoreSentiment_normalizes_difference "happy sad angry")).
    vm_compute. reflexivity.
Defined.

(** C1, as stated, fails.  ["happy joy sad"] has two positive hits and one
    negative hit: the result is [1/11], not [min(1, 2/11)].
    ["happy sad angry"] has one positive hit and two negative hits: the
    result is [-1/10], whose magnitude is not [2/10]. *)
Lemma scoreSentiment_hit_count_counterexample :
  (0 < posHits "happy joy sad" - negHits "happy joy sad" /\
   scoreSentiment (Some "happy joy sad") = lit 1 11 /\
   scoreSentiment (Some "happy joy sad") <>
     Math_min one (div (of_Z (posHits "happy joy sad")) (of_Z Pn))) /\
  (posHits "happy sad angry" - negHits "happy sad angry" < 0 /\
   scoreSentiment (Some "happy sad angry") = lit (-1) 10 /\
   scoreSentiment (Some "happy sad angry") <>
     neg (Math_min one (div (of_Z (negHits "happy sad angry")) (of_Z Nn)))).
Proof.
  repeat split; try (vm_compute; reflexivity); vm_compute; discriminate.
Qed.

(** C4.  [scoreSentiment] returns, for every argument, a number between
    [-1] and [1] (in particular never NaN), and exactly [0] for an absent
    or empty text. *)
Theorem scoreSentiment_total_bounded :
  (forall text : option string,
      le (neg one) (scoreSentiment text) = true /\
      le (scoreSentiment text) one = true) /\
  scoreSentiment None = zero /\
  scoreSentiment (Some "") = zero.
Proof.
  split; [| split; reflexivity].
  intros text.
  assert (H : between (neg one) one (scoreSentiment text) = true).
  { destruct text as [t |]; [| reflexivity].
    destruct (string_dec t "") as [-> | Ht]; [reflexivity |].
    rewrite (scoreSentiment_unfold t Ht). cbv zeta.
    pose proof (rawScore_bounds t) as Hb. rewrite rawScore_hits in Hb.
    unfold Pn, Nn in Hb.
    destruct (0 <? posHits t - negHits t) eqn:Hpos.
    - apply Z.ltb_lt in Hpos. apply positive_branch_range. lia.
    - destruct (posHits t - negHits t <? 0) eqn:Hneg.
      + apply Z.ltb_lt in Hneg. apply negative_branch_range. lia.
      + destruct (includes t "!" && (String.length t <? 50)%nat); reflexivity. }
  apply andb_prop in H. exact H.
Qed.



(** ** Recommendation engine *)

(** Comparison of positive finite numbers of equal exponent goes by the
    mantissa: a number above the larger of two such thresholds is at most
    neither of them. *)
Lemma above_thresholds (mlo mhi : positive) (e0 : Z) (x : number) :
  (mlo < mhi)%positive ->
  lt (S754_finite false mhi e0) x = true ->
  le x (S754_finite false mlo e0) = false /\
  le x (S754_finite false mhi e0) = false.
Proof.
  intros Hm. unfold lt, le, SFltb, SFleb.
  destruct x as [[] | [] | | [] m e]; cbn; try discriminate; auto.
  change (Pos.compare_cont Eq ?a ?b) with (Pos.compare a b).
  destruct (Z.compare_spec e0 e) as [<- | He | He]; try discriminate.
  - rewrite Z.compare_refl.
    destruct (Pos.compare_spec mhi m) as [Hm' | Hm' | Hm']; try discriminate.
    intros _.
    rewrite (proj2 (Pos.compare_gt_iff m mlo)) by lia.
    rewrite (proj2 (Pos.compare_gt_iff m mhi)) by lia.
    auto.
  - intros _. rewrite (proj2 (Z.compare_gt_iff e e0)) by lia. auto.
Qed.

(** A number above 3.5 is neither at most 3.5 nor at most 2.5. *)
Lemma above_upper_threshold (x : number) :
  lt (lit 35 10) x = true ->
  le x (lit 25 10) = false /\ le x (lit 35 10) = false.
Proof.
  destruct lit_values as (_ & -> & -> & _).
  apply above_thresholds. reflexivity.
Qed.

(** A list without repeated texts, none of them seen before, passes the
    filter unchanged. *)
Lemma dedupe_fresh (seen : list string) (out : list Recommendation) :
  NoDup (map text out) ->
  (forall r, In r out -> ~ In (text r) seen) ->
  dedupe seen out = out.
Proof.
  revert seen. induction out as [| r out IH]; intros seen Hnd Hseen; [reflexivity |].
  simpl. inversion Hnd as [| ? ? Hnotin Hnd']; subst.
  destruct (existsb (String.eqb (text r)) seen) eqn:E.
  - apply existsb_exists in E as (x & Hx & Heq).
    apply String.eqb_eq in Heq. subst x.
    exfalso. apply (Hseen r); [now left | exact Hx].
  - f_equal. apply IH; [exact Hnd' |].
    intros r' Hr' [Heq | Hin].
    + apply Hnotin. rewrite Heq. apply in_map, Hr'.
    + apply (Hseen r'); [now right | exact Hin].
Qed.

(** The texts of the rules are pairwise distinct, so the final filter
    never removes anything on the statistics path. *)
Lemma rules_distinct (avgM avgS : number) :
  NoDup (map text (mood_tier avgM ++ sentiment_overlay avgS)).
Proof.
  unfold mood_tier, sentiment_overlay.
  destruct (le avgM (lit 25 10)), (le avgM (lit 35 10)), (lt avgS (lit (-1) 10));
    cbn [app map];
    repeat (constructor; [cbn; intuition discriminate |]); constructor.
Qed.

Lemma generateRecommendations_rules (e : Entry) (es : list Entry) :
  generateRecommendations (Some (e :: es)) =
    (mood_tier (avgMood (e :: es)) ++ sentiment_overlay (avgSentiment (e :: es)))%list.
Proof.
  unfold generateRecommendations.
  apply dedupe_fresh; [apply rules_distinct | intros r _ []].
Qed.

(** [e.mood || 3] followed by the addition's [ToNumber]. *)
Lemma mood_or_three (v : value) :
  ToNumber (or_default v three) =
    match v with
    | undefined | null | num (S754_zero _) | num S754_nan => three
    | num x => x
    end.
Proof. destruct v as [| | [s | s | | s m e]]; reflexivity. Qed.

(** A number outside the range from 1 to 5 is truthy unless it is a zero. *)
Lemma out_of_range_truthy (x : number) :
  lt x one = true \/ lt (of_Z 5) x = true ->
  SFeqb x zero = false ->
  ToBoolean (num x) = true.
Proof.
  intros Hout Hnz.
  destruct x as [s | s | | s m e]; try reflexivity.
  - discriminate Hnz.
  - destruct Hout as [H | H]; discriminate H.
Qed.

Lemma moods_effective (es : list Entry) :
  reduce_sum (moods es) =
    fold_left add (map (fun e => effective_mood (mood e)) es) zero.
Proof.
  unfold reduce_sum, moods. generalize zero.
  induction es as [| e es IH]; intros a; [reflexivity |].
  cbn [map fold_left]. rewrite IH. do 2 f_equal. apply mood_or_three.
Qed.

(** Moods 1 and 2 with neutral sentiment: the grounding pair alone. *)
Example generateRecommendations_low_mood :
  generateRecommendations
    (Some [entry "2024-01-01" (num (of_Z 1)) (num zero);
           entry "2024-01-02" (num (of_Z 2)) (num zero)]) = [r_ground; r_talk].
Proof. vm_compute. reflexivity. Qed.

(** C2, as amended.  [generateRecommendations] always returns a list,
    of one to four recommendations.  A mood that is absent ([undefined],
    [null]) or falsy ([0], [-0], [NaN]) counts as 3 in [avgMood]; every
    other mood, in particular a non-zero one outside the range from 1 to
    5, enters the average as it is.  On a non-empty window the result is
    the mood tier of [avgMood] followed by the sentiment overlay. *)
Theorem generateRecommendations_mood_default :
  (forall recentEntries,
      (1 <= List.length (generateRecommendations recentEntries) <= 4)%nat) /\
  (forall e es,
      generateRecommendations (Some (e :: es)) =
        (mood_tier (avgMood (e :: es))
           ++ sentiment_overlay (avgSentiment (e :: es)))%list) /\
  (forall es,
      avgMood es =
        div (fold_left add (map (fun e => effective_mood (mood e)) es) zero)
            (of_Z (array_length es))) /\
  (effective_mood undefined = three /\ effective_mood null = three /\
   effective_mood (num zero) = three /\ effective_mood (num NaN) = three) /\
  (forall x,
      lt x one = true \/ lt (of_Z 5) x = true ->
      SFeqb x zero = false ->
      effective_mood (num x) = x).
Proof.
  split; [| split; [| split; [| split]]].
  - intros [[| e es] |]; [cbn; lia | | cbn; lia].
    rewrite generateRecommendations_rules, length_app.
    unfold mood_tier, sentiment_overlay.
    destruct (le (avgMood (e :: es)) (lit 25 10)),
             (le (avgMood (e :: es)) (lit 35 10)),
             (lt (avgSentiment (e :: es)) (lit (-1) 10));
      cbn [List.length]; lia.
  - apply generateRecommendations_rules.
  - intros es. unfold avgMood. rewrite moods_effective.
    unfold moods, array_length. now rewrite length_map.
  - repeat split.
  - intros x Hout Hnz. pose proof (out_of_range_truthy x Hout Hnz) as Ht.
    destruct x as [s | s | | s m e]; try reflexivity; discriminate Ht.
Qed.

Lemma generateRecommendations_mood_default_witness :
  lt (of_Z 5) (of_Z 7) = true /\ SFeqb (of_Z 7) zero = false /\
  effective_mood (num (of_Z 7)) = of_Z 7.
Proof.
  split; [reflexivity | split; [reflexivity |]].
  apply (proj2 (proj2 (proj2 (proj2 generateRecommendations_mood_default)))).
  - right. reflexivity.
  - reflexivity.
Defined.

(** C2, as stated, fails.  A single entry of mood 7 has [avgMood = 7] and
    gets the keep-routine item; had 7 counted as 3, the average would be 3
    and the breathing tier would apply. *)
Lemma mood_out_of_range_counterexample :
  between one (of_Z 5) (of_Z 7) = false /\
  avgMood window_mood7 = of_Z 7 /\
  spec_avgMood window_mood7 = three /\
  generateRecommendations (Some window_mood7) = [r_keep] /\
  (mood_tier (spec_avgMood window_mood7)
     ++ sentiment_overlay (avgSentiment window_mood7))%list = [r_breathe; r_walk2].
Proof. repeat split; vm_compute; reflexivity. Qed.

(** C6.  On an empty or absent entry list [generateRecommendations]
    returns exactly the breathing-exercise suggestion followed by the walk
    suggestion. *)
Theorem generateRecommendations_cold_start :
  generateRecommendations None = [r_default; r_walk] /\
  generateRecommendations (Some []) = [r_default; r_walk] /\
  map id [r_default; r_walk] = ["r_default"; "r_walk"] /\
  text r_default = "Try a short 5-minute breathing exercise to start your day." /\
  text r_walk = "Go for a 10-minute walk outside — nature helps mood.".
Proof. repeat split. Qed.

(** C7.  On a non-empty window with [avgMood > 3.5] and
    [avgSentiment < -0.1], [generateRecommendations] returns exactly the
    keep-routine item, the journaling item and the sleep-hygiene item, in
    this order, and their texts are pairwise distinct. *)
Theorem generateRecommendations_keep_with_overlay (es : list Entry) :
  es <> [] ->
  lt (lit 35 10) (avgMood es) = true ->
  lt (avgSentiment es) (lit (-1) 10) = true ->
  generateRecommendations (Some es) = [r_keep; r_journal; r_sleep] /\
  NoDup (map text (generateRecommendations (Some es))).
Proof.
  intros Hne Hmood Hsent.
  destruct es as [| e es]; [congruence |].
  rewrite generateRecommendations_rules.
  split; [| apply rules_distinct].
  destruct (above_upper_threshold _ Hmood) as [H25 H35].
  unfold mood_tier, sentiment_overlay. now rewrite H25, H35, Hsent.
Qed.

Lemma generateRecommendations_keep_with_overlay_witness :
  avgMood window_high_mood_low_sentiment = lit 45 10 /\
  avgSentiment window_high_mood_low_sentiment = lit (-5) 10 /\
  generateRecommendations (Some window_high_mood_low_sentiment) =
    [r_keep; r_journal; r_sleep] /\
  NoDup (map text (generateRecommendations (Some window_high_mood_low_sentiment))).
Proof.
  split; [vm_compute; reflexivity | split; [vm_compute; reflexivity |]].
  apply (generateRecommendations_keep_with_overlay window_high_mood_low_sentiment).
  - discriminate.
  - vm_compute. reflexivity.
  - vm_compute. reflexivity.
Defined.

(** *** Order of the window *)

(** Everything after the averages depends on the window only through its
    length and the two sums. *)
Lemma generateRecommendations_sums (es es' : list Entry) :
  List.length es = List.length es' ->
  reduce_sum (moods es) = reduce_sum (moods es') ->
  reduce_sum (sentiments es) = reduce_sum (sentiments es') ->
  generateRecommendations (Some es) = generateRecommendations (Some es').
Proof.
  intros Hlen Hm Hs.
  destruct es as [| e es], es' as [| e' es']; try discriminate Hlen; [reflexivity |].
  rewrite !generateRecommendations_rules.
  unfold avgMood, avgSentiment, moods, sentiments, array_length in *.
  rewrite !length_map, Hm, Hs, Hlen. reflexivity.
Qed.

(** Binary64 addition is exact on the partial sums of a window of at most
    ten slider moods. *)
Lemma add_points_exact (k m : Z) :
  0 <= k <= 45 -> 1 <= m <= 5 -> add (of_Z k) (of_Z m) = of_Z (k + m).
Proof.
  intros Hk Hm.
  pose (P := fun k =>
    forallb (fun m => same (add (of_Z k) (of_Z m)) (of_Z (k + m))) (Zrange 1 5)).
  assert (H : P k = true).
  { apply (forallb_Zrange P 0 45); [vm_compute; reflexivity | exact Hk]. }
  unfold P in H. rewrite forallb_forall in H.
  apply same_eq, H, Zrange_In, Hm.
Qed.

Lemma slider_mood_points (v : value) :
  slider_mood v ->
  ToNumber (or_default v three) = of_Z (mood_points v) /\ 1 <= mood_points v <= 5.
Proof.
  intros [-> | [-> | (m & Hm & ->)]]; [split; [reflexivity | cbn; lia] .. |].
  assert (E : m = 1 \/ m = 2 \/ m = 3 \/ m = 4 \/ m = 5) by lia.
  destruct E as [-> | [-> | [-> | [-> | ->]]]];
    (split; [vm_compute; reflexivity | vm_compute; split; discriminate]).
Qed.

Lemma fold_moods_exact (es : list Entry) (k : Z) :
  Forall (fun e => slider_mood (mood e)) es ->
  0 <= k -> k + 5 * array_length es <= 50 ->
  fold_left (fun a b => add a (ToNumber b)) (moods es) (of_Z k) =
    of_Z (k + sum_points es).
Proof.
  unfold array_length. revert k.
  induction es as [| e es IH]; intros k Hall Hk Hlen.
  - cbn. f_equal. lia.
  - inversion Hall as [| ? ? He Hall']; subst.
    destruct (slider_mood_points _ He) as [Hnum Hrange].
    cbn [moods map fold_left sum_points fold_right List.length] in *.
    rewrite Hnum, add_points_exact by lia.
    fold (moods es). rewrite IH by (try assumption; lia).
    f_equal. fold (sum_points es). lia.
Qed.

Lemma sum_points_permutation (es es' : list Entry) :
  Permutation es es' -> sum_points es = sum_points es'.
Proof.
  induction 1 as [| e es es' _ IH | e e' es | es es' es'' _ IH1 _ IH2];
    cbn [sum_points fold_right]; fold sum_points in *;
    try fold (sum_points es); try fold (sum_points es'); lia.
Qed.

(** The mood sum of a window of at most ten slider moods does not depend
    on the order of the window. *)
Lemma moods_sum_permutation (es es' : list Entry) :
  Permutation es es' ->
  (List.length es <= 10)%nat ->
  Forall (fun e => slider_mood (mood e)) es ->
  reduce_sum (moods es) = reduce_sum (moods es').
Proof.
  intros Hperm Hlen Hall.
  assert (Hall' : Forall (fun e => slider_mood (mood e)) es').
  { rewrite Forall_forall in *. intros e He. apply Hall.
    apply (Permutation_in e (Permutation_sym Hperm) He). }
  pose proof (Permutation_length Hperm) as Hlen'.
  unfold reduce_sum. change zero with (of_Z 0).
  rewrite !fold_moods_exact by (try assumption; unfold array_length; lia).
  f_equal. f_equal. apply sum_points_permutation, Hperm.
Qed.

(** C10, as amended.  [generateRecommendations] returns the same list
    for a window and a permutation of it whenever the permutation leaves
    the left-to-right binary64 sum of the sentiments (missing ones as 0)
    unchanged, and either leaves the sum of the moods (falsy ones as 3)
    unchanged too, or the window has at most ten entries whose moods are
    integers from 1 to 5 or missing. *)
Theorem generateRecommendations_permutation (es es' : list Entry) :
  Permutation es es' ->
  reduce_sum (moods es) = reduce_sum (moods es') \/
  ((List.length es <= 10)%nat /\ Forall (fun e => slider_mood (mood e)) es) ->
  reduce_sum (sentiments es) = reduce_sum (sentiments es') ->
  generateRecommendations (Some es) = generateRecommendations (Some es').
Proof.
  intros Hperm Hmoods Hsent.
  apply generateRecommendations_sums.
  - apply Permutation_length, Hperm.
  - destruct Hmoods as [H | [Hlen Hall]]; [exact H |].
    apply moods_sum_permutation; assumption.
  - exact Hsent.
Qed.

Lemma generateRecommendations_permutation_witness :
  generateRecommendations (Some window_high_mood_low_sentiment) =
  generateRecommendations (Some (rev window_high_mood_low_sentiment)).
Proof.
  apply (generateRecommendations_permutation
           window_high_mood_low_sentiment (rev window_high_mood_low_sentiment)).
  - apply Permutation_rev.
  - right. split; [cbn; lia |].
    constructor; [| constructor; [| constructor]]; right; right;
      [exists 4 | exists 5]; (split; [lia | reflexivity]).
  - vm_compute. reflexivity.
Defined.

(** C10, as stated, fails.  The six check-ins of [window_newest_first]
    have sentiments -0.1, -0.2, -0.3, 0, 0, 0.  Summed newest first they
    average just below -0.1 and the overlay is emitted; summed oldest
    first they average just above -0.1 and it is not. *)
Lemma permutation_counterexample :
  Permutation window_newest_first window_oldest_first /\
  map sentiment window_newest_first =
    [ num (lit (-1) 10); num (lit (-2) 10); num (lit (-3) 10);
      num zero; num zero; num zero ] /\
  lt (avgSentiment window_newest_first) (lit (-1) 10) = true /\
  lt (avgSentiment window_oldest_first) (lit (-1) 10) = false /\
  generateRecommendations (Some window_newest_first) =
    [r_breathe; r_walk2; r_journal; r_sleep] /\
  generateRecommendations (Some window_oldest_first) = [r_breathe; r_walk2] /\
  generateRecommendations (Some window_newest_first) <>
    generateRecommendations (Some window_oldest_first).
Proof.
  split; [apply Permutation_rev |].
  repeat split; try (vm_compute; reflexivity).
  vm_compute. discriminate.
Qed.

(** ** Trend aggregation *)

(** *** The order on date strings *)

Lemma string_lt_trans (a b c : string) :
  String.ltb a b = true -> String.ltb b c = true -> String.ltb a c = true.
Proof.
  unfold String.ltb.
  assert (H : String.compare a b = Lt -> String.compare b c = Lt ->
              String.compare a c = Lt).
  { revert b c.
    induction a as [| x a IH]; intros [| y b] [| z c]; simpl; try easy.
    unfold Ascii.compare.
    destruct (N.compare_spec (N_of_ascii x) (N_of_ascii y)) as [E1 | L1 | G1];
      destruct (N.compare_spec (N_of_ascii y) (N_of_ascii z)) as [E2 | L2 | G2];
      destruct (N.compare_spec (N_of_ascii x) (N_of_ascii z)) as [E3 | L3 | G3];
      try discriminate; try lia; eauto. }
  destruct (String.compare a b); try discriminate.
  destruct (String.compare b c); try discriminate.
  now rewrite H.
Qed.

Lemma string_lt_irrefl (a : string) : String.ltb a a = false.
Proof.
  unfold String.ltb.
  pose proof (String.compare_antisym a a) as H.
  destruct (String.compare a a); try reflexivity; discriminate H.
Qed.

Lemma string_lt_total (a b : string) :
  a <> b -> String.ltb a b = true \/ String.ltb b a = true.
Proof.
  intros Hne. unfold String.ltb.
  rewrite (String.compare_antisym b a).
  destruct (String.compare a b) eqn:E; cbn; auto.
  apply String.compare_eq_iff in E. contradiction.
Qed.

Lemma string_lt_le (a b : string) : String.ltb a b = true -> String.leb a b = true.
Proof.
  unfold String.ltb, String.leb. destruct (String.compare a b); easy.
Qed.

(** *** Sorting by date *)

Section SortByKey.

Context {A : Type} (key : A -> string).

Lemma insert_by_permutation (x : A) (l : list A) :
  Permutation (insert_by (ascending_by key) x l) (x :: l).
Proof.
  induction l as [| y l IH]; simpl; [reflexivity |].
  destruct (0 <? (ascending_by key) x y); [| reflexivity].
  rewrite IH. apply perm_swap.
Qed.

Lemma sort_by_permutation (l : list A) : Permutation (sort_by (ascending_by key) l) l.
Proof.
  induction l as [| x l IH]; simpl; [reflexivity |].
  rewrite insert_by_permutation. now constructor.
Qed.

Lemma insert_by_sorted (x : A) (l : list A) :
  ~ In (key x) (map key l) ->
  StronglySorted (before_by key) l ->
  StronglySorted (before_by key) (insert_by (ascending_by key) x l).
Proof.
  intros Hfresh Hsorted.
  induction Hsorted as [| y l Hsorted IH Hall]; simpl.
  - repeat constructor.
  - assert (Hxy : key x <> key y) by (intros E; apply Hfresh; left; congruence).
    assert (Hl : ~ In (key x) (map key l)) by (intros H; apply Hfresh; now right).
    unfold ascending_by at 1. destruct (String.ltb (key y) (key x)) eqn:E; cbn.
    + constructor; [apply IH, Hl |].
      rewrite (insert_by_permutation x l). now constructor.
    + assert (Hlt : before_by key x y).
      { destruct (string_lt_total _ _ Hxy) as [H | H]; [exact H | congruence]. }
      constructor; [now constructor |].
      constructor; [exact Hlt |].
      eapply Forall_impl; [| exact Hall].
      intros z Hz. exact (string_lt_trans _ _ _ Hlt Hz).
Qed.

Lemma sort_by_sorted (l : list A) :
  NoDup (map key l) -> StronglySorted (before_by key) (sort_by (ascending_by key) l).
Proof.
  induction l as [| x l IH]; simpl; intros Hnd; [constructor |].
  inversion Hnd as [| ? ? Hfresh Hnd']; subst.
  apply insert_by_sorted; [| apply IH, Hnd'].
  intros H. apply Hfresh.
  apply (Permutation_in _ (Permutation_map key (sort_by_permutation l)) H).
Qed.

(** A strictly ascending list is determined by its elements. *)
Lemma sorted_permutation_unique (l1 l2 : list A) :
  StronglySorted (before_by key) l1 -> StronglySorted (before_by key) l2 ->
  Permutation l1 l2 -> l1 = l2.
Proof.
  intros H1. revert l2.
  induction H1 as [| x l1 Hs1 IH Hall1]; intros l2 H2 Hperm.
  - now apply Permutation_nil in Hperm.
  - destruct H2 as [| y l2 Hs2 Hall2].
    + symmetry in Hperm. now apply Permutation_nil in Hperm.
    + assert (Hxy : x = y).
      { assert (Hx : In x (y :: l2)) by (apply (Permutation_in _ Hperm); now left).
        assert (Hy : In y (x :: l1))
          by (apply (Permutation_in _ (Permutation_sym Hperm)); now left).
        destruct Hx as [Hx | Hx]; [congruence |].
        destruct Hy as [Hy | Hy]; [congruence |].
        rewrite Forall_forall in Hall1, Hall2.
        pose proof (Hall1 _ Hy) as Hlt1. pose proof (Hall2 _ Hx) as Hlt2.
        pose proof (string_lt_trans _ _ _ Hlt1 Hlt2) as Hbad.
        rewrite string_lt_irrefl in Hbad. discriminate Hbad. }
      subst y. f_equal. apply IH; [exact Hs2 |].
      apply (Permutation_cons_inv Hperm).
Qed.

(** The order in which the values of the map are enumerated does not
    affect the sorted array. *)
Lemma sort_by_enumeration_order (l l' : list A) :
  NoDup (map key l) -> Permutation l l' -> sort_by (ascending_by key) l = sort_by (ascending_by key) l'.
Proof.
  intros Hnd Hperm.
  apply sorted_permutation_unique.
  - apply sort_by_sorted, Hnd.
  - apply sort_by_sorted.
    apply (Permutation_NoDup (Permutation_map key Hperm) Hnd).
  - rewrite !sort_by_permutation. exact Hperm.
Qed.

End SortByKey.

(** *** The date map *)

Example iso_date_samples :
  iso_date "2024-01-06" = true /\ iso_date "" = false /\
  iso_date "constructor" = false /\ iso_date "__proto__" = false /\
  iso_date "2024-1-6" = false /\ iso_date "toString" = false.
Proof. repeat split. Qed.

Lemma lookup_update (d d' : string) (f : Bucket -> Bucket) (m : DataMap) :
  lookup d (update d' f m) =
    if String.eqb d' d then option_map f (lookup d m) else lookup d m.
Proof.
  induction m as [| [k b] m IH]; simpl.
  - now destruct (String.eqb d' d).
  - destruct (String.eqb_spec k d') as [-> | Hk]; simpl.
    + destruct (String.eqb d' d); reflexivity.
    + destruct (String.eqb_spec k d) as [-> | Hkd].
      * apply String.eqb_neq in Hk. rewrite String.eqb_sym in Hk. now rewrite Hk.
      * exact IH.
Qed.

Lemma lookup_app_new (d d' : string) (b : Bucket) (m : DataMap) :
  lookup d (m ++ [(d', b)]) =
    match lookup d m with
    | Some x => Some x
    | None => if String.eqb d' d then Some b else None
    end.
Proof.
  induction m as [| [k x] m IH]; simpl; [reflexivity |].
  destruct (String.eqb k d); [reflexivity | exact IH].
Qed.

Lemma update_keys (d : string) (f : Bucket -> Bucket) (m : DataMap) :
  map fst (update d f m) = map fst m.
Proof.
  induction m as [| [k b] m IH]; simpl; [reflexivity |].
  destruct (String.eqb k d); simpl; congruence.
Qed.

Lemma lookup_None (d : string) (m : DataMap) :
  lookup d m = None <-> ~ In d (map fst m).
Proof.
  induction m as [| [k b] m IH]; simpl; [tauto |].
  destruct (String.eqb_spec k d) as [-> | Hk].
  - split; [discriminate | intros H; exfalso; apply H; now left].
  - rewrite IH. tauto.
Qed.

Lemma lookup_In (d : string) (b : Bucket) (m : DataMap) :
  NoDup (map fst m) -> (In (d, b) m <-> lookup d m = Some b).
Proof.
  induction m as [| [k x] m IH]; simpl; intros Hnd.
  - split; [contradiction | discriminate].
  - inversion Hnd as [| ? ? Hfresh Hnd']; subst.
    destruct (String.eqb_spec k d) as [-> | Hk].
    + split.
      * intros [H | H]; [congruence |].
        exfalso. apply Hfresh. apply (in_map fst) in H. exact H.
      * intros H. left. congruence.
    + rewrite <- (IH Hnd'). split; [intros [H | H]; [congruence | exact H] | auto].
Qed.

(** The sums over one date's entries, extended by one entry. *)
Lemma group_snoc (d : string) (es : list Entry) (e : Entry) :
  group d (es ++ [e]) =
    (group d es ++ (if String.eqb (date e) d then [e] else []))%list.
Proof. unfold group. rewrite filter_app. reflexivity. Qed.

Lemma bucket_of_snoc (d : string) (es : list Entry) (e : Entry) :
  bucket_of d (es ++ [e]) =
    if String.eqb (date e) d then accumulate e (bucket_of d es) else bucket_of d es.
Proof.
  unfold bucket_of. rewrite group_snoc.
  destruct (String.eqb (date e) d).
  - unfold accumulate, sum_mood, sum_sentiment, array_length. cbn [bucket_date moodSum count sentimentSum].
    rewrite !fold_left_app, length_app. cbn [fold_left List.length].
    f_equal. lia.
  - now rewrite app_nil_r.
Qed.

Lemma bucket_of_unseen (d : string) (es : list Entry) :
  ~ In d (map date es) -> bucket_of d es = mkBucket d zero 0 zero.
Proof.
  intros H. unfold bucket_of.
  assert (E : group d es = []).
  { unfold group. induction es as [| e es IH]; [reflexivity |].
    cbn [filter]. destruct (String.eqb_spec (date e) d) as [Hd | Hd].
    - exfalso. apply H. now left.
    - apply IH. intros Hin. apply H. now right. }
  now rewrite E.
Qed.

Lemma forEach_body_describes (m : DataMap) (es : list Entry) (e : Entry) :
  describes m es -> describes (forEach_body m e) (es ++ [e]).
Proof.
  intros (Hnd & Hkeys & Hval). unfold forEach_body.
  destruct (lookup (date e) m) as [b0 |] eqn:Hlk.
  - (* the date has a bucket already *)
    assert (Hin : In (date e) (map fst m)).
    { destruct (in_dec string_dec (date e) (map fst m)) as [H | H]; [exact H |].
      apply lookup_None in H. congruence. }
    split; [| split].
    + now rewrite update_keys.
    + intros d. rewrite update_keys, map_app, in_app_iff, Hkeys. cbn.
      split; [tauto |]. intros [H | [<- | []]]; [exact H |].
      apply Hkeys, Hin.
    + intros d b. rewrite lookup_update, bucket_of_snoc.
      destruct (String.eqb (date e) d).
      * destruct (lookup d m) as [x |] eqn:Hx; [| discriminate].
        cbn. intros [= <-]. now rewrite (Hval d x Hx).
      * apply Hval.
  - (* first entry of its date *)
    assert (Hfresh : ~ In (date e) (map fst m)) by now apply lookup_None.
    split; [| split].
    + rewrite update_keys, map_app. cbn.
      apply NoDup_app; [exact Hnd | repeat constructor; intros [] |].
      intros x Hx [<- | []]. contradiction.
    + intros d. rewrite update_keys, !map_app, !in_app_iff, Hkeys. reflexivity.
    + intros d b. rewrite lookup_update, lookup_app_new, bucket_of_snoc.
      destruct (String.eqb_spec (date e) d) as [<- | Hd].
      * rewrite Hlk. cbn. intros [= <-].
        rewrite bucket_of_unseen; [reflexivity |].
        intros H. apply Hfresh, Hkeys, H.
      * destruct (lookup d m) as [x |] eqn:Hx; [| discriminate].
        intros [= <-]. apply (Hval d x Hx).
Qed.

Lemma fold_describes (es done : list Entry) (m : DataMap) :
  describes m done -> describes (fold_left forEach_body es m) (done ++ es).
Proof.
  revert done m. induction es as [| e es IH]; intros done m H; simpl.
  - now rewrite app_nil_r.
  - replace (done ++ e :: es)%list with ((done ++ [e]) ++ es)%list
      by (rewrite <- app_assoc; reflexivity).
    apply IH, forEach_body_describes, H.
Qed.

Lemma build_dataMap_describes (entries : list Entry) :
  describes (build_dataMap entries) entries.
Proof.
  apply (fold_describes entries [] []).
  split; [constructor | split]; [intros d; reflexivity | discriminate].
Qed.

(** *** The trend series *)

Lemma TrendCharts_data_permutation (entries : list Entry) :
  Permutation (TrendCharts_data entries)
              (map to_point (Object_values (build_dataMap entries))).
Proof. apply (sort_by_permutation point_date). Qed.

Lemma point_dates (entries : list Entry) :
  map point_date (map to_point (Object_values (build_dataMap entries))) =
    map fst (build_dataMap entries).
Proof.
  destruct (build_dataMap_describes entries) as (Hnd & _ & Hval).
  unfold Object_values. rewrite !map_map.
  apply map_ext_in. intros [k b] Hin. cbn.
  apply (lookup_In k b _ Hnd) in Hin.
  now rewrite (Hval k b Hin).
Qed.

Lemma TrendCharts_data_dates (entries : list Entry) :
  Permutation (map point_date (TrendCharts_data entries))
              (map fst (build_dataMap entries)).
Proof.
  rewrite <- point_dates.
  apply Permutation_map, TrendCharts_data_permutation.
Qed.

Lemma TrendCharts_data_strictly_ascending (entries : list Entry) :
  StronglySorted (fun a b => String.ltb (point_date a) (point_date b) = true)
                 (TrendCharts_data entries).
Proof.
  apply (sort_by_sorted point_date).
  rewrite point_dates. apply (build_dataMap_describes entries).
Qed.

Lemma ascending_non_decreasing (l : list TrendPoint) :
  StronglySorted (fun a b => String.ltb (point_date a) (point_date b) = true) l ->
  StronglySorted (fun a b => String.leb (point_date a) (point_date b) = true) l.
Proof.
  induction 1 as [| p l Hs IH Hall]; constructor; [exact IH |].
  eapply Forall_impl; [| exact Hall].
  intros q Hq. apply string_lt_le, Hq.
Qed.

(** Every point is the rounded mean of its date's entries. *)
Lemma TrendCharts_data_point (entries : list Entry) (p : TrendPoint) :
  In p (TrendCharts_data entries) ->
  In (point_date p) (map date entries) /\
  p = to_point (bucket_of (point_date p) entries).
Proof.
  intros Hin.
  apply (Permutation_in _ (TrendCharts_data_permutation entries)) in Hin.
  destruct (build_dataMap_describes entries) as (Hnd & Hkeys & Hval).
  unfold Object_values in Hin. rewrite map_map in Hin.
  apply in_map_iff in Hin as ([k b] & <- & Hin). cbn [snd].
  pose proof (in_map fst _ _ Hin) as Hk. cbn [fst] in Hk.
  apply (lookup_In k b _ Hnd) in Hin.
  rewrite (Hval k b Hin). cbn [to_point bucket_of bucket_date point_date].
  split; [apply Hkeys, Hk | reflexivity].
Qed.

(** C8.  For every list of entries the series is non-decreasing in the
    date strings, no date occurs twice, every date of the series is the
    date of an entry, and every calendar date ([YYYY-MM-DD]) of an entry
    has its point; the empty list gives the empty series. *)
Theorem TrendCharts_data_ascending_unique :
  (forall entries : list Entry,
      StronglySorted (fun a b => String.leb (point_date a) (point_date b) = true)
                     (TrendCharts_data entries) /\
      NoDup (map point_date (TrendCharts_data entries)) /\
      (forall d, In d (map point_date (TrendCharts_data entries)) ->
                 In d (map date entries)) /\
      (forall d, iso_date d = true ->
                 In d (map date entries) ->
                 In d (map point_date (TrendCharts_data entries)))) /\
  TrendCharts_data [] = [].
Proof.
  split; [| reflexivity].
  intros entries.
  destruct (build_dataMap_describes entries) as (Hnd & Hkeys & _).
  pose proof (TrendCharts_data_dates entries) as Hperm.
  split; [| split; [| split]].
  - apply ascending_non_decreasing, TrendCharts_data_strictly_ascending.
  - apply (Permutation_NoDup (Permutation_sym Hperm) Hnd).
  - intros d H. apply Hkeys. apply (Permutation_in _ Hperm H).
  - intros d _ H. apply Hkeys in H.
    apply (Permutation_in _ (Permutation_sym Hperm) H).
Qed.

Lemma TrendCharts_data_ascending_unique_witness :
  In "2024-01-02" (map point_date (TrendCharts_data (example_entries null null null))).
Proof.
  apply (proj2 (proj2 (proj2
           (proj1 TrendCharts_data_ascending_unique (example_entries null null null))))).
  - reflexivity.
  - right. right. left. reflexivity.
Defined.

(** C9.  The three entries dated 2024-01-01, 2024-01-01, 2024-01-02 with
    moods 3, 5, 1 give two points, 2024-01-01 with mean mood 4 and
    2024-01-02 with mean mood 1.  In general the mood of a point is the
    sum of its date's moods divided by their count, and its sentiment the
    sum of its date's sentiments (a missing one as 0) divided by the same
    count, each passed through [+x.toFixed(2)]. *)
Theorem TrendCharts_data_means :
  (forall s1 s2 s3 : value,
      map (fun p => (point_date p, point_mood p))
          (TrendCharts_data (example_entries s1 s2 s3)) =
        [("2024-01-01", of_Z 4); ("2024-01-02", of_Z 1)]) /\
  (forall (entries : list Entry) (p : TrendPoint),
      In p (TrendCharts_data entries) ->
      let g := group (point_date p) entries in
      g <> [] /\
      point_mood p = toFixed2 (div (sum_mood g) (of_Z (array_length g))) /\
      point_sentiment p = toFixed2 (div (sum_sentiment g) (of_Z (array_length g)))).
Proof.
  split.
  - intros s1 s2 s3.
    cbv - [add div toFixed2 ToNumber nullish_default].
    repeat f_equal; vm_compute; reflexivity.
  - intros entries p Hin g.
    destruct (TrendCharts_data_point entries p Hin) as [Hdate Hp].
    split; [| rewrite Hp at 1 2; split; reflexivity].
    subst g. unfold group. intros Hnil.
    apply in_map_iff in Hdate as (e & He & Hin').
    assert (H : In e (filter (fun e => String.eqb (date e) (point_date p)) entries)).
    { apply filter_In. split; [exact Hin' | now apply String.eqb_eq]. }
    rewrite Hnil in H. exact H.
Qed.

Lemma TrendCharts_data_means_witness :
  point_mood (mkPoint "2024-01-01" (of_Z 4) (lit 1 2)) =
    toFixed2 (div (sum_mood (group "2024-01-01" (example_entries (num one) null undefined)))
                  (of_Z 2)) /\
  point_sentiment (mkPoint "2024-01-01" (of_Z 4) (lit 1 2)) =
    toFixed2 (div (sum_sentiment
                     (group "2024-01-01" (example_entries (num one) null undefined)))
                  (of_Z 2)).
Proof.
  apply (proj2 TrendCharts_data_means
               (example_entries (num one) null undefined)
               (mkPoint "2024-01-01" (of_Z 4) (lit 1 2))).
  left. vm_compute. reflexivity.
Defined.

(** C3: the series on an entry that lacks its mood.  The sentiment
    defaults to 0, the mood does not: [moodSum += undefined] makes the sum
    NaN, and the mean mood of the whole date is NaN. *)
Theorem TrendCharts_data_missing_mood :
  TrendCharts_data entries_missing_mood =
    [mkPoint "2024-01-01" NaN (lit 25 100)].
Proof. vm_compute. reflexivity. Qed.

(** * Further properties *)

(** ** Sentiment scoring: case, values, sign, extremes *)

Lemma toLowerChar_idempotent (c : ascii) : toLowerChar (toLowerChar c) = toLowerChar c.
Proof. destruct c as [[] [] [] [] [] [] [] []]; vm_compute; reflexivity. Qed.

Lemma toLowerCase_idempotent (s : string) : toLowerCase (toLowerCase s) = toLowerCase s.
Proof.
  induction s as [| c s IH]; [reflexivity |].
  cbn [toLowerCase]. now rewrite toLowerChar_idempotent, IH.
Qed.

Lemma toLowerCase_empty (s : string) : toLowerCase s = "" -> s = "".
Proof. destruct s; [reflexivity | discriminate]. Qed.

(** X1.  The score depends on the text only through its lower-casing: two
    texts that differ in letter case alone score the same. *)
Theorem scoreSentiment_case_insensitive (t u : string) :
  toLowerCase t = toLowerCase u ->
  scoreSentiment (Some t) = scoreSentiment (Some u).
Proof.
  intros E.
  destruct (string_dec t "") as [-> | Ht].
  - symmetry in E. apply toLowerCase_empty in E. now subst u.
  - assert (Hu : u <> "").
    { intros ->. apply Ht. now apply toLowerCase_empty. }
    rewrite (scoreSentiment_unfold t Ht), (scoreSentiment_unfold u Hu).
    unfold posHits, negHits, hits.
    rewrite <- (includes_bang t), <- (includes_bang u).
    rewrite <- (toLowerCase_length t), <- (toLowerCase_length u).
    now rewrite E.
Qed.

Lemma scoreSentiment_case_insensitive_witness :
  scoreSentiment (Some "So HAPPY, so Grateful!") =
  scoreSentiment (Some "so happy, so grateful!").
Proof.
  apply (scoreSentiment_case_insensitive
           "So HAPPY, so Grateful!" "so happy, so grateful!").
  reflexivity.
Defined.

(** On the reachable raw scores the two clamps leave the quotient as it
    is, and the quotient has the sign of the raw score. *)
Lemma positive_branch_exact (k : Z) :
  1 <= k <= 11 ->
  Math_min one (div (of_Z k) (of_Z Pn)) = lit k 11 /\ lt zero (lit k 11) = true.
Proof.
  intros Hk.
  pose (P := fun k => same (Math_min one (div (of_Z k) (of_Z Pn))) (lit k 11)
                      && lt zero (lit k 11)).
  assert (H : P k = true).
  { apply (forallb_Zrange P 1 11); [vm_compute; reflexivity | exact Hk]. }
  apply andb_prop in H as [H1 H2]. split; [apply same_eq, H1 | exact H2].
Qed.

Lemma negative_branch_exact (k : Z) :
  -10 <= k <= -1 ->
  Math_max (neg one) (div (of_Z k) (of_Z Nn)) = lit k 10 /\ lt (lit k 10) zero = true.
Proof.
  intros Hk.
  pose (P := fun k => same (Math_max (neg one) (div (of_Z k) (of_Z Nn))) (lit k 10)
                      && lt (lit k 10) zero).
  assert (H : P k = true).
  { apply (forallb_Zrange P (-10) (-1)); [vm_compute; reflexivity | exact Hk]. }
  apply andb_prop in H as [H1 H2]. split; [apply same_eq, H1 | exact H2].
Qed.

Lemma hits_difference_bounds (t : string) : -10 <= posHits t - negHits t <= 11.
Proof.
  pose proof (rawScore_bounds t) as H. rewrite rawScore_hits in H.
  unfold Pn, Nn in H. exact H.
Qed.

(** The score written without the clamps. *)
Lemma scoreSentiment_quotient (t : string) :
  scoreSentiment (Some t) =
    let score := posHits t - negHits t in
    if 0 <? score then lit score 11
    else if score <? 0 then lit score 10
    else if includes t "!" && (String.length t <? 50)%nat then lit 1 2
    else zero.
Proof.
  pose proof (hits_difference_bounds t) as Hb.
  destruct (string_dec t "") as [-> | Ht]; [reflexivity |].
  rewrite (scoreSentiment_unfold t Ht). cbv zeta.
  destruct (0 <? posHits t - negHits t) eqn:Hpos.
  - apply Z.ltb_lt in Hpos. apply positive_branch_exact. lia.
  - destruct (posHits t - negHits t <? 0) eqn:Hneg; [| reflexivity].
    apply Z.ltb_lt in Hneg. apply negative_branch_exact. lia.
Qed.

Lemma scoreSentiment_in_values (text : option string) :
  In (scoreSentiment text) score_values.
Proof.
  unfold score_values.
  destruct text as [t |]; [| apply in_or_app; right; apply in_or_app; right; now right; left].
  pose proof (hits_difference_bounds t) as Hb.
  rewrite scoreSentiment_quotient. cbv zeta.
  destruct (0 <? posHits t - negHits t) eqn:Hpos.
  - apply Z.ltb_lt in Hpos. apply in_or_app. left.
    apply (in_map (fun k => lit k 11)), Zrange_In. lia.
  - destruct (posHits t - negHits t <? 0) eqn:Hneg.
    + apply Z.ltb_lt in Hneg. apply in_or_app. right. apply in_or_app. left.
      apply (in_map (fun k => lit k 10)), Zrange_In. lia.
    + apply in_or_app. right. apply in_or_app. right.
      destruct (includes t "!" && (String.length t <? 50)%nat); [now left | now right; left].
Qed.

(** X2.  [Math.min] and [Math.max] never change the quotient: the score
    is exactly [(posHits - negHits) / 11] when the difference is positive
    and [(posHits - negHits) / 10] when it is negative, so
    [scoreSentiment] has only 23 possible results, [1/11 .. 11/11],
    [-10/10 .. -1/10], [0.5] and [0]. *)
Theorem scoreSentiment_values :
  (forall t, 0 < posHits t - negHits t ->
             scoreSentiment (Some t) = lit (posHits t - negHits t) 11) /\
  (forall t, posHits t - negHits t < 0 ->
             scoreSentiment (Some t) = lit (posHits t - negHits t) 10) /\
  (forall text, In (scoreSentiment text) score_values) /\
  List.length score_values = 23%nat.
Proof.
  split; [| split; [| split; [apply scoreSentiment_in_values | reflexivity]]].
  - intros t H. rewrite scoreSentiment_quotient. cbv zeta.
    apply Z.ltb_lt in H. now rewrite H.
  - intros t H. rewrite scoreSentiment_quotient. cbv zeta.
    assert (H0 : (0 <? posHits t - negHits t) = false) by (apply Z.ltb_ge; lia).
    apply Z.ltb_lt in H. now rewrite H0, H.
Qed.

Lemma scoreSentiment_values_witness :
  scoreSentiment (Some "calm and relaxed") = lit 2 11 /\
  scoreSentiment (Some "so tired") = lit (-1) 10.
Proof.
  split.
  - apply (proj1 scoreSentiment_values "calm and relaxed"). vm_compute. reflexivity.
  - apply (proj1 (proj2 scoreSentiment_values) "so tired"). vm_compute. reflexivity.
Defined.

(** X3.  The sign of the score is the sign of [posHits - negHits]: the
    score is negative exactly when the negative terms outnumber the
    positive ones, and it is positive whenever the positive terms
    outnumber the negative ones. *)
Theorem scoreSentiment_sign (t : string) :
  (lt (scoreSentiment (Some t)) zero = true <-> posHits t < negHits t) /\
  (negHits t < posHits t -> lt zero (scoreSentiment (Some t)) = true).
Proof.
  pose proof (hits_difference_bounds t) as Hb.
  rewrite scoreSentiment_quotient. cbv zeta.
  destruct (0 <? posHits t - negHits t) eqn:Hpos.
  - apply Z.ltb_lt in Hpos.
    destruct (positive_branch_exact (posHits t - negHits t) ltac:(lia)) as [_ Hs].
    split; [split; [| lia] | intros _; exact Hs].
    intros H. exfalso.
    unfold lt, SFltb in *.
    destruct (lit (posHits t - negHits t) 11) as [[] | [] | | [] m e];
      cbn in *; discriminate.
  - apply Z.ltb_ge in Hpos.
    destruct (posHits t - negHits t <? 0) eqn:Hneg.
    + apply Z.ltb_lt in Hneg.
      destruct (negative_branch_exact (posHits t - negHits t) ltac:(lia)) as [_ Hs].
      split; [split; [lia | intros _; exact Hs] | lia].
    + apply Z.ltb_ge in Hneg.
      split; [| lia].
      destruct (includes t "!" && (String.length t <? 50)%nat);
        (split; [intros H; vm_compute in H; discriminate H | lia]).
Qed.

Lemma scoreSentiment_sign_witness :
  lt zero (scoreSentiment (Some "I feel good and calm, a bit tired")) = true.
Proof.
  apply (proj2 (scoreSentiment_sign "I feel good and calm, a bit tired")).
  vm_compute. reflexivity.
Defined.

(** A text that includes a word includes every prefix of the word. *)
Lemma occurs_here_prefix (w u s : string) :
  occurs_here (w ++ u)%string s = true -> occurs_here w s = true.
Proof.
  revert s. induction w as [| a w IH]; intros s; [reflexivity |].
  destruct s as [| b s]; cbn [String.append occurs_here]; [discriminate |].
  intros H. apply andb_prop in H as [Hab H].
  rewrite Hab. cbn. apply IH, H.
Qed.

Lemma includes_prefix (w u s : string) :
  includes s (w ++ u)%string = true -> includes s w = true.
Proof.
  induction s as [| b s IH]; cbn [includes]; intros H.
  - apply orb_prop in H as [H | H]; [| discriminate].
    apply occurs_here_prefix in H. now rewrite H.
  - apply orb_prop in H as [H | H].
    + apply occurs_here_prefix in H. now rewrite H.
    + rewrite (IH H). apply orb_true_r.
Qed.

Lemma filter_keeps_all {A : Type} (f : A -> bool) (l : list A) :
  List.length (filter f l) = List.length l -> forall x, In x l -> f x = true.
Proof.
  induction l as [| y l IH]; intros Hlen x Hx; [contradiction |].
  cbn [filter] in Hlen. pose proof (filter_length_le f l) as Hle.
  destruct (f y) eqn:Hy; cbn [List.length] in Hlen; [| lia].
  destruct Hx as [<- | Hx]; [exact Hy |].
  apply IH; [lia | exact Hx].
Qed.

Lemma filter_keeps_one {A : Type} (f : A -> bool) (l : list A) (x : A) :
  In x l -> f x = true -> (1 <= List.length (filter f l))%nat.
Proof.
  intros Hx Hfx.
  assert (H : In x (filter f l)) by (apply filter_In; auto).
  destruct (filter f l); [contradiction | cbn; lia].
Qed.

(** The negative term "hopeless" starts with the positive term "hope":
    a text with all ten negative terms has at least one positive hit. *)
Lemma hits_difference_above (t : string) : -9 <= posHits t - negHits t.
Proof.
  pose proof (hits_bounds POSITIVE_WORDS t) as Hp.
  pose proof (hits_bounds NEGATIVE_WORDS t) as Hn.
  change (array_length NEGATIVE_WORDS) with 10 in Hn.
  fold (posHits t) in Hp. fold (negHits t) in Hn.
  destruct (Z.eq_dec (negHits t) 10) as [E | E]; [| lia].
  assert (Hall : forall w, In w NEGATIVE_WORDS -> includes (toLowerCase t) w = true).
  { apply filter_keeps_all.
    unfold negHits, hits, array_length in E.
    apply Nat2Z.inj. rewrite E. reflexivity. }
  assert (Hhope : includes (toLowerCase t) "hope" = true).
  { apply (includes_prefix "hope" "less"). apply Hall.
    unfold NEGATIVE_WORDS. repeat (try (left; reflexivity); right). }
  assert (1 <= posHits t); [| lia].
  unfold posHits, hits, array_length.
  apply (inj_le 1), (filter_keeps_one _ _ "hope"); [| exact Hhope].
  unfold POSITIVE_WORDS. repeat (try (left; reflexivity); right).
Qed.

(** X4.  [scoreSentiment] never returns [-1]: its least value is [-0.9],
    because the negative term "hopeless" contains the positive term
    "hope" and the two cancel.  The value [-0.9] and the greatest value
    [1] are both reached. *)
Theorem scoreSentiment_extremes :
  (forall text, le (lit (-9) 10) (scoreSentiment text) = true) /\
  scoreSentiment
    (Some "sad depressed angry anxious stressed upset lonely worried tired") =
    lit (-9) 10 /\
  scoreSentiment
    (Some "sad depressed angry anxious stressed upset lonely worried tired hopeless") =
    lit (-9) 10 /\
  scoreSentiment
    (Some "happy joy great good content excited calm relaxed hope love grateful") = one.
Proof.
  split; [| repeat split; vm_compute; reflexivity].
  intros [t |]; [| reflexivity].
  pose proof (hits_difference_bounds t) as Hb.
  pose proof (hits_difference_above t) as Ha.
  rewrite scoreSentiment_quotient. cbv zeta.
  destruct (0 <? posHits t - negHits t) eqn:Hpos.
  - apply Z.ltb_lt in Hpos.
    apply (forallb_Zrange (fun k => le (lit (-9) 10) (lit k 11)) 1 11);
      [vm_compute; reflexivity | lia].
  - destruct (posHits t - negHits t <? 0) eqn:Hneg.
    + apply Z.ltb_lt in Hneg.
      apply (forallb_Zrange (fun k => le (lit (-9) 10) (lit k 10)) (-9) (-1));
        [vm_compute; reflexivity | lia].
    + destruct (includes t "!" && (String.length t <? 50)%nat); reflexivity.
Qed.

(** ** Recommendation engine: the filter, the keys, the tiers *)

Lemma seen_spec (t : string) (seen : list string) :
  existsb (String.eqb t) seen = true <-> In t seen.
Proof.
  rewrite existsb_exists. split.
  - intros (x & Hx & E). apply String.eqb_eq in E. now subst x.
  - intros H. exists t. split; [exact H | apply String.eqb_refl].
Qed.

Lemma dedupe_In (seen : list string) (out : list Recommendation) (r : Recommendation) :
  In r (dedupe seen out) -> In r out /\ ~ In (text r) seen.
Proof.
  revert seen. induction out as [| x out IH]; intros seen; cbn [dedupe]; [contradiction |].
  destruct (existsb (String.eqb (text x)) seen) eqn:E.
  - intros H. destruct (IH _ H) as [H1 H2]. split; [now right | exact H2].
  - intros [<- | H].
    + split; [now left |]. intros Hin. apply seen_spec in Hin. congruence.
    + destruct (IH _ H) as [H1 H2]. split; [now right |].
      intros Hin. apply H2. now right.
Qed.

Lemma dedupe_NoDup (seen : list string) (out : list Recommendation) :
  NoDup (map text (dedupe seen out)).
Proof.
  revert seen. induction out as [| x out IH]; intros seen; cbn [dedupe]; [constructor |].
  destruct (existsb (String.eqb (text x)) seen); [apply IH |].
  cbn [map]. constructor; [| apply IH].
  intros H. apply in_map_iff in H as (r & Hr & Hin).
  apply dedupe_In in Hin as [_ Hfresh]. apply Hfresh. left. congruence.
Qed.

Lemma dedupe_covers (seen : list string) (out : list Recommendation) (r : Recommendation) :
  In r out -> In (text r) seen \/ In (text r) (map text (dedupe seen out)).
Proof.
  revert seen. induction out as [| x out IH]; intros seen; [contradiction |].
  cbn [dedupe]. intros Hin.
  destruct (existsb (String.eqb (text x)) seen) eqn:E.
  - destruct Hin as [<- | Hin]; [left; now apply seen_spec | now apply IH].
  - cbn [map]. destruct Hin as [<- | Hin]; [right; now left |].
    destruct (IH (text x :: seen) Hin) as [[H | H] | H].
    + right. left. exact H.
    + now left.
    + right. now right.
Qed.

(** X5.  The final filter of [generateRecommendations], on any list of
    recommendations: the result has no two items of the same text, it
    consists of items of the list, every text of the list is still
    present, the first item is always kept, and filtering twice changes
    nothing. *)
Theorem dedupe_first_occurrences (out : list Recommendation) :
  NoDup (map text (dedupe [] out)) /\
  (forall r, In r (dedupe [] out) -> In r out) /\
  (forall r, In r out -> In (text r) (map text (dedupe [] out))) /\
  (forall r out', out = r :: out' -> exists l, dedupe [] out = r :: l) /\
  dedupe [] (dedupe [] out) = dedupe [] out.
Proof.
  split; [apply dedupe_NoDup |].
  split; [intros r H; apply (dedupe_In [] out r H) |].
  split.
  { intros r H. destruct (dedupe_covers [] out r H) as [[] | H']. exact H'. }
  split.
  { intros r out' ->. cbn. eexists. reflexivity. }
  apply dedupe_fresh; [apply dedupe_NoDup | intros r _ []].
Qed.

Lemma dedupe_first_occurrences_witness :
  In (text r_walk) (map text (dedupe [] [r_breathe; r_walk; r_breathe; r_walk])) /\
  exists l, dedupe [] [r_breathe; r_walk; r_breathe; r_walk] = r_breathe :: l.
Proof.
  split.
  - apply (proj1 (proj2 (proj2
             (dedupe_first_occurrences [r_breathe; r_walk; r_breathe; r_walk])))).
    right. left. reflexivity.
  - apply (proj1 (proj2 (proj2 (proj2
             (dedupe_first_occurrences [r_breathe; r_walk; r_breathe; r_walk]))))
             r_breathe [r_walk; r_breathe; r_walk]).
    reflexivity.
Defined.

(** X6.  Whatever its argument, [generateRecommendations] returns items
    with pairwise distinct [id]s, so the list keys of [Recommendations]
    never clash, and with pairwise distinct texts. *)
Theorem generateRecommendations_distinct_ids (recentEntries : option (list Entry)) :
  NoDup (map id (generateRecommendations recentEntries)) /\
  NoDup (map text (generateRecommendations recentEntries)).
Proof.
  destruct recentEntries as [[| e es] |].
  - split; repeat (constructor; [cbn; intuition discriminate |]); constructor.
  - rewrite generateRecommendations_rules.
    split; [| apply rules_distinct].
    unfold mood_tier, sentiment_overlay.
    destruct (le (avgMood (e :: es)) (lit 25 10)),
             (le (avgMood (e :: es)) (lit 35 10)),
             (lt (avgSentiment (e :: es)) (lit (-1) 10));
      cbn [app map];
      repeat (constructor; [cbn; intuition discriminate |]); constructor.
  - split; repeat (constructor; [cbn; intuition discriminate |]); constructor.
Qed.

(** The two threshold tests on a quotient of small integers are the
    integer tests. *)
Lemma mood_tier_by_points (s n : Z) :
  0 <= s <= 50 -> 1 <= n <= 10 ->
  mood_tier (div (of_Z s) (of_Z n)) = tier_by_points s n.
Proof.
  intros Hs Hn.
  pose (P := fun n => forallb (fun s =>
      Bool.eqb (le (div (of_Z s) (of_Z n)) (lit 25 10)) (2 * s <=? 5 * n)
      && Bool.eqb (le (div (of_Z s) (of_Z n)) (lit 35 10)) (2 * s <=? 7 * n))
    (Zrange 0 50)).
  assert (H : P n = true).
  { apply (forallb_Zrange P 1 10); [vm_compute; reflexivity | exact Hn]. }
  unfold P in H. rewrite forallb_forall in H.
  specialize (H s (Zrange_In _ _ _ Hs)).
  apply andb_prop in H as [H1 H2].
  apply Bool.eqb_prop in H1, H2.
  unfold mood_tier, tier_by_points. now rewrite H1, H2.
Qed.

Lemma sum_points_bounds (es : list Entry) :
  Forall (fun e => slider_mood (mood e)) es ->
  array_length es <= sum_points es <= 5 * array_length es.
Proof.
  unfold array_length.
  induction 1 as [| e es He _ IH]; [cbn; lia |].
  destruct (slider_mood_points _ He) as [_ Hr].
  cbn [sum_points fold_right List.length]. fold (sum_points es). lia.
Qed.

Lemma avgMood_by_points (es : list Entry) :
  (List.length es <= 10)%nat ->
  Forall (fun e => slider_mood (mood e)) es ->
  avgMood es = div (of_Z (sum_points es)) (of_Z (array_length es)).
Proof.
  intros Hlen Hall. unfold avgMood, reduce_sum. change zero with (of_Z 0).
  rewrite fold_moods_exact by (try assumption; unfold array_length; lia).
  unfold moods, array_length. rewrite length_map. reflexivity.
Qed.

(** X7.  [Recommendations] runs the engine on the first ten entries.
    When their moods are integers from 1 to 5 (or missing, counted as 3),
    the binary64 average decides the tier exactly as the integers do:
    with [s] the sum of the moods and [n] their number, the grounding pair
    when [2 s <= 5 n], the breathing pair when [5 n < 2 s <= 7 n], the
    keep-routine item otherwise; the overlay follows. *)
Theorem Recommendations_tier_by_points (entries : list Entry) :
  entries <> [] ->
  Forall (fun e => slider_mood (mood e)) (firstn 10 entries) ->
  Recommendations_recs entries =
    tier_by_points (sum_points (firstn 10 entries))
                   (array_length (firstn 10 entries))
    ++ sentiment_overlay (avgSentiment (firstn 10 entries)).
Proof.
  intros Hne Hall. unfold Recommendations_recs.
  pose proof (firstn_le_length 10 entries) as Hlen.
  destruct (firstn 10 entries) as [| e w] eqn:Ew.
  { destruct entries; [congruence | discriminate Ew]. }
  rewrite generateRecommendations_rules.
  rewrite (avgMood_by_points (e :: w) Hlen Hall).
  pose proof (sum_points_bounds (e :: w) Hall) as Hs.
  rewrite mood_tier_by_points; [reflexivity | |];
    unfold array_length in *; cbn [List.length] in *; lia.
Qed.

Lemma Recommendations_tier_by_points_witness :
  Recommendations_recs window_newest_first =
    [r_breathe; r_walk2]
    ++ sentiment_overlay (avgSentiment (firstn 10 window_newest_first)).
Proof.
  apply (Recommendations_tier_by_points window_newest_first).
  - discriminate.
  - repeat (constructor; [right; right; exists 3; split; [lia | reflexivity] |]).
    constructor.
Defined.

Lemma reduce_sum_no_sentiment (es : list Entry) :
  Forall (fun e => no_sentiment (sentiment e)) es ->
  reduce_sum (sentiments es) = zero.
Proof.
  unfold reduce_sum, sentiments.
  induction 1 as [| e es He _ IH]; [reflexivity |].
  cbn [map fold_left].
  replace (add zero (ToNumber (nullish_default (sentiment e) zero))) with zero;
    [exact IH |].
  destruct (sentiment e) as [| | [[] | | |]]; try contradiction; reflexivity.
Qed.

(** X8.  When none of the first ten entries carries a sentiment (the
    field is missing or zero, as for check-ins without a note), the
    journaling and sleep-hygiene items are never recommended, whatever
    the moods and whatever the older entries hold. *)
Theorem Recommendations_no_overlay (entries : list Entry) :
  Forall (fun e => no_sentiment (sentiment e)) (firstn 10 entries) ->
  ~ In r_journal (Recommendations_recs entries) /\
  ~ In r_sleep (Recommendations_recs entries).
Proof.
  intros Hall. unfold Recommendations_recs.
  pose proof (firstn_le_length 10 entries) as Hlen.
  destruct (firstn 10 entries) as [| e w] eqn:Ew.
  { split; cbn; intuition discriminate. }
  rewrite generateRecommendations_rules.
  assert (Hs : sentiment_overlay (avgSentiment (e :: w)) = []).
  { unfold avgSentiment. rewrite (reduce_sum_no_sentiment _ Hall).
    unfold sentiments, array_length. rewrite length_map.
    unfold sentiment_overlay.
    pose (P := fun n => negb (lt (div zero (of_Z n)) (lit (-1) 10))).
    assert (H : P (Z.of_nat (List.length (e :: w))) = true).
    { apply (forallb_Zrange P 1 10); [vm_compute; reflexivity |].
      cbn [List.length] in *. lia. }
    unfold P in H. apply negb_true_iff in H. now rewrite H. }
  rewrite Hs, app_nil_r. unfold mood_tier.
  destruct (le (avgMood (e :: w)) (lit 25 10)), (le (avgMood (e :: w)) (lit 35 10));
    split; cbn; intuition discriminate.
Qed.

Lemma Recommendations_no_overlay_witness :
  ~ In r_journal (Recommendations_recs [entry "2024-01-01" (num (of_Z 1)) undefined]) /\
  ~ In r_sleep (Recommendations_recs [entry "2024-01-01" (num (of_Z 1)) undefined]).
Proof.
  apply (Recommendations_no_overlay [entry "2024-01-01" (num (of_Z 1)) undefined]).
  repeat constructor.
Defined.

(** ** MoodPill *)

(** X9.  The label index of [MoodPill] is always within the five-element
    array: every integer mood gets a label, a mood from 1 to 5 its own,
    anything below the first and anything above the last. *)
Theorem MoodPill_label_defined (val : Z) :
  (exists label, MoodPill_label val = Some label /\ In label MOOD_LABELS) /\
  (1 <= val <= 5 ->
   MoodPill_label val = nth_error MOOD_LABELS (Z.to_nat (val - 1))) /\
  (val <= 1 -> MoodPill_label val = nth_error MOOD_LABELS 0) /\
  (5 <= val -> MoodPill_label val = nth_error MOOD_LABELS 4).
Proof.
  unfold MoodPill_label.
  assert (Hi : 0 <= MoodPill_index val <= 4) by (unfold MoodPill_index; lia).
  assert (Hneg : (MoodPill_index val <? 0) = false) by (apply Z.ltb_ge; lia).
  rewrite Hneg.
  split; [| split; [| split]].
  - assert (E : MoodPill_index val = 0 \/ MoodPill_index val = 1 \/
                MoodPill_index val = 2 \/ MoodPill_index val = 3 \/
                MoodPill_index val = 4) by lia.
    destruct E as [-> | [-> | [-> | [-> | ->]]]]; cbn; eexists;
      (split; [reflexivity | cbn; tauto]).
  - intros H. f_equal. f_equal. unfold MoodPill_index. lia.
  - intros H. replace (MoodPill_index val) with 0 by (unfold MoodPill_index; lia).
    reflexivity.
  - intros H. replace (MoodPill_index val) with 4 by (unfold MoodPill_index; lia).
    reflexivity.
Qed.

Lemma MoodPill_label_defined_witness :
  MoodPill_label 3 = Some "🙂 Okay" /\
  MoodPill_label (-7) = Some "😞 Low" /\
  MoodPill_label 12 = Some "😁 Great".
Proof.
  split; [| split].
  - apply (proj1 (proj2 (MoodPill_label_defined 3))). lia.
  - apply (proj1 (proj2 (proj2 (MoodPill_label_defined (-7))))). lia.
  - apply (proj2 (proj2 (proj2 (MoodPill_label_defined 12)))). lia.
Defined.

(** ** The trend series and the entry list *)

Lemma TrendCharts_data_has_date (entries : list Entry) (d : string) :
  In d (map point_date (TrendCharts_data entries)) <-> In d (map date entries).
Proof.
  destruct (build_dataMap_describes entries) as (_ & Hkeys & _).
  pose proof (TrendCharts_data_dates entries) as Hperm.
  rewrite <- Hkeys. split; intros H.
  - apply (Permutation_in _ Hperm H).
  - apply (Permutation_in _ (Permutation_sym Hperm) H).
Qed.

Lemma TrendCharts_data_NoDup (entries : list Entry) :
  NoDup (map point_date (TrendCharts_data entries)).
Proof.
  destruct (build_dataMap_describes entries) as (Hnd & _ & _).
  apply (Permutation_NoDup (Permutation_sym (TrendCharts_data_dates entries)) Hnd).
Qed.

(** X10.  The series is empty without entries, and as soon as one entry
    has a calendar date ([YYYY-MM-DD]) it is not: the "no trends" notice
    is shown for no such list.  The series never has more points than
    there are entries. *)
Theorem TrendCharts_data_empty_iff (entries : list Entry) :
  (entries = [] -> TrendCharts_data entries = []) /\
  (forall e, In e entries -> iso_date (date e) = true ->
             TrendCharts_data entries <> []) /\
  (List.length (TrendCharts_data entries) <= List.length entries)%nat.
Proof.
  split; [intros ->; reflexivity | split].
  - intros e He _ H.
    assert (Hin : In (date e) (map point_date (TrendCharts_data entries)))
      by (apply TrendCharts_data_has_date, in_map, He).
    rewrite H in Hin. contradiction.
  - rewrite <- (length_map point_date), <- (length_map date entries).
    apply NoDup_incl_length; [apply TrendCharts_data_NoDup |].
    intros d. apply TrendCharts_data_has_date.
Qed.

Lemma TrendCharts_data_empty_iff_witness :
  TrendCharts_data window_mood7 <> [].
Proof.
  apply (proj1 (proj2 (TrendCharts_data_empty_iff window_mood7))
               (entry "2024-01-01" (num (of_Z 7)) (num zero))).
  - left. reflexivity.
  - reflexivity.
Defined.

Lemma StronglySorted_map_dates (l : list TrendPoint) :
  StronglySorted (fun a b => String.ltb (point_date a) (point_date b) = true) l ->
  StronglySorted (before_by (fun d : string => d)) (map point_date l).
Proof.
  induction 1 as [| p l Hs IH Hall]; cbn [map]; constructor; [exact IH |].
  apply Forall_map. exact Hall.
Qed.

(** X11.  The dates of the series, in order, do not depend on the order
    of the entries: two entry lists that are permutations of each other
    give the same sequence of dates on the x-axis. *)
Theorem TrendCharts_data_dates_order_free (entries entries' : list Entry) :
  Permutation entries entries' ->
  map point_date (TrendCharts_data entries) =
  map point_date (TrendCharts_data entries').
Proof.
  intros Hperm.
  apply (sorted_permutation_unique (fun d : string => d)).
  - apply StronglySorted_map_dates, TrendCharts_data_strictly_ascending.
  - apply StronglySorted_map_dates, TrendCharts_data_strictly_ascending.
  - apply NoDup_Permutation; try apply TrendCharts_data_NoDup.
    intros d. rewrite !TrendCharts_data_has_date.
    split; apply Permutation_in;
      [apply Permutation_map, Hperm | apply Permutation_map, Permutation_sym, Hperm].
Qed.

Lemma TrendCharts_data_dates_order_free_witness :
  map point_date (TrendCharts_data window_newest_first) =
  map point_date (TrendCharts_data window_oldest_first).
Proof.
  apply (TrendCharts_data_dates_order_free window_newest_first window_oldest_first).
  apply Permutation_rev.
Defined.

(** ** handleDelete and handleSave *)

Lemma handleDelete_In (i : string) (prev : list Entry) (e : Entry) :
  In e (handleDelete i prev) <-> In e prev /\ eid e <> i.
Proof.
  unfold handleDelete. rewrite filter_In, negb_true_iff, String.eqb_neq. reflexivity.
Qed.

Lemma handleDelete_absent (i : string) (prev : list Entry) :
  ~ In i (map eid prev) -> handleDelete i prev = prev.
Proof.
  intros Hfresh. unfold handleDelete.
  induction prev as [| e prev IH]; [reflexivity |].
  cbn [filter].
  destruct (String.eqb_spec (eid e) i) as [E | E].
  - exfalso. apply Hfresh. left. exact E.
  - cbn [negb]. f_equal. apply IH. intros H. apply Hfresh. now right.
Qed.

(** X12.  [handleDelete] removes every entry with the given identifier
    and no other; it changes nothing when the identifier is absent; it
    keeps the list newest first; and it never adds a date to the trend
    series. *)
Theorem handleDelete_removes_id (i : string) (prev : list Entry) :
  (forall e, In e (handleDelete i prev) <-> In e prev /\ eid e <> i) /\
  (~ In i (map eid prev) -> handleDelete i prev = prev) /\
  (StronglySorted newest_first_order prev ->
   StronglySorted newest_first_order (handleDelete i prev)) /\
  (forall d, In d (map point_date (TrendCharts_data (handleDelete i prev))) ->
             In d (map point_date (TrendCharts_data prev))).
Proof.
  split; [apply handleDelete_In |].
  split; [| split].
  - apply handleDelete_absent.
  - induction 1 as [| e prev Hs IH Hall]; [constructor |].
    unfold handleDelete in *. cbn [filter].
    destruct (negb (String.eqb (eid e) i)); [| exact IH].
    constructor; [exact IH |].
    rewrite Forall_forall in *. intros x Hx.
    apply filter_In in Hx as [Hx _]. apply Hall, Hx.
  - intros d. rewrite !TrendCharts_data_has_date, !in_map_iff.
    intros (e & Hd & He). exists e. split; [exact Hd |].
    apply handleDelete_In in He. apply He.
Qed.

Lemma handleDelete_removes_id_witness :
  handleDelete "z" window_newest_first = window_newest_first /\
  StronglySorted newest_first_order (handleDelete "b" window_newest_first).
Proof.
  split.
  - apply (proj1 (proj2 (handleDelete_removes_id "z" window_newest_first))).
    cbn. intuition discriminate.
  - apply (proj1 (proj2 (proj2 (handleDelete_removes_id "b" window_newest_first)))).
    repeat (constructor; [| repeat (constructor; [reflexivity |]); constructor]).
    constructor.
Defined.

Lemma sort_by_permutes {A : Type} (cmp : A -> A -> Z) (l : list A) :
  Permutation (sort_by cmp l) l.
Proof.
  induction l as [| x l IH]; cbn [sort_by fold_right]; [reflexivity |].
  fold (sort_by cmp l).
  transitivity (x :: sort_by cmp l); [| now constructor].
  generalize (sort_by cmp l). intros s.
  induction s as [| y s IHs]; cbn [insert_by]; [reflexivity |].
  destruct (0 <? cmp x y); [| reflexivity].
  rewrite IHs. apply perm_swap.
Qed.

Lemma Permutation_handleDelete (i : string) (l l' : list Entry) :
  Permutation l l' -> Permutation (handleDelete i l) (handleDelete i l').
Proof.
  unfold handleDelete.
  induction 1 as [| e l l' _ IH | e e' l | l l' l'' _ IH1 _ IH2]; cbn [filter].
  - reflexivity.
  - destruct (negb (String.eqb (eid e) i)); [now constructor | exact IH].
  - destruct (negb (String.eqb (eid e) i)), (negb (String.eqb (eid e') i));
      try reflexivity. apply perm_swap.
  - now transitivity (filter (fun p => negb (String.eqb (eid p) i)) l').
Qed.

Section EngineSort.

(** The engine's [Array.prototype.sort].  Whatever the comparison
    function, the sorted array holds the elements of the original one. *)
Variable sort : (Entry -> Entry -> Z) -> list Entry -> list Entry.
Hypothesis sort_permutes : forall cmp l, Permutation (sort cmp l) l.

(** X13.  [handleSave] adds exactly the new entry: the list grows by
    one and keeps every earlier entry; when the new entry has a calendar
    date ([YYYY-MM-DD]) the trend series gains that date and no other;
    and deleting the new entry again, when its identifier is fresh, gives
    back the earlier entries.  All this holds for any order the engine's
    sort leaves the list in. *)
Theorem handleSave_adds_entry (e : Entry) (prev : list Entry) :
  Permutation (handleSave sort e prev) (e :: prev) /\
  List.length (handleSave sort e prev) = S (List.length prev) /\
  (iso_date (date e) = true ->
   forall d, In d (map point_date (TrendCharts_data (handleSave sort e prev))) <->
             d = date e \/ In d (map point_date (TrendCharts_data prev))) /\
  (~ In (eid e) (map eid prev) ->
   Permutation (handleDelete (eid e) (handleSave sort e prev)) prev).
Proof.
  assert (Hperm : Permutation (handleSave sort e prev) (e :: prev))
    by apply sort_permutes.
  split; [exact Hperm |].
  split; [apply (Permutation_length Hperm) |].
  split.
  - intros _ d. rewrite !TrendCharts_data_has_date.
    split.
    + intros H. apply (Permutation_in _ (Permutation_map date Hperm)) in H.
      destruct H as [H | H]; [left; now symmetry | right; exact H].
    + intros H.
      apply (Permutation_in _ (Permutation_sym (Permutation_map date Hperm))).
      destruct H as [-> | H]; [now left | now right].
  - intros Hfresh.
    rewrite (Permutation_handleDelete _ _ _ Hperm).
    unfold handleDelete at 1. cbn [filter].
    rewrite String.eqb_refl. cbn [negb].
    fold (handleDelete (eid e) prev).
    now rewrite (handleDelete_absent _ _ Hfresh).
Qed.

End EngineSort.

Lemma handleSave_adds_entry_witness :
  List.length (handleSave sort_by seventh_entry window_newest_first) = 7%nat /\
  In "2024-01-06"
     (map point_date
          (TrendCharts_data (handleSave sort_by seventh_entry window_newest_first))) /\
  Permutation
    (handleDelete "g" (handleSave sort_by seventh_entry window_newest_first))
    window_newest_first.
Proof.
  split; [| split].
  - apply (proj1 (proj2 (handleSave_adds_entry sort_by (@sort_by_permutes Entry)
                           seventh_entry window_newest_first))).
  - apply (proj1 (proj2 (proj2 (handleSave_adds_entry sort_by (@sort_by_permutes Entry)
                                  seventh_entry window_newest_first)))
                 eq_refl "2024-01-06").
    left. reflexivity.
  - apply (proj2 (proj2 (proj2 (handleSave_adds_entry sort_by (@sort_by_permutes Entry)
                                  seventh_entry window_newest_first)))).
    cbn. intuition discriminate.
Defined.

(** ** Quick stats *)

Lemma group_all (d : string) (es : list Entry) :
  Forall (fun e => date e = d) es -> group d es = es.
Proof.
  unfold group. induction 1 as [| e es He _ IH]; [reflexivity |].
  cbn [filter]. rewrite He, String.eqb_refl. now f_equal.
Qed.

(** X14.  When all entries fall on one calendar date ([YYYY-MM-DD]), the
    trend series is the single point of that date, and its mood and
    sentiment are the two averages of the quick stats. *)
Theorem stats_single_date (d : string) (e : Entry) (es : list Entry) :
  iso_date d = true ->
  Forall (fun x => date x = d) (e :: es) ->
  exists m s : number,
    stats (e :: es) = mkStats (num m) (num s) /\
    TrendCharts_data (e :: es) = [mkPoint d m s].
Proof.
  intros _ Hall.
  exists (toFixed2 (div (sum_mood (e :: es)) (of_Z (array_length (e :: es))))),
         (toFixed2 (div (sum_sentiment (e :: es)) (of_Z (array_length (e :: es))))).
  split; [reflexivity |].
  pose proof (TrendCharts_data_NoDup (e :: es)) as Hnd.
  assert (Hdates : forall p, In p (TrendCharts_data (e :: es)) -> point_date p = d).
  { intros p Hp.
    assert (H : In (point_date p) (map date (e :: es)))
      by (apply TrendCharts_data_has_date, in_map, Hp).
    apply in_map_iff in H as (x & Hx & Hin).
    rewrite Forall_forall in Hall. rewrite <- Hx. apply Hall, Hin. }
  assert (Hd : In d (map point_date (TrendCharts_data (e :: es)))).
  { apply TrendCharts_data_has_date. left. now inversion Hall. }
  destruct (TrendCharts_data (e :: es)) as [| p [| q l]] eqn:Edata.
  - contradiction.
  - f_equal.
    assert (Hp : In p (TrendCharts_data (e :: es))) by (rewrite Edata; now left).
    destruct (TrendCharts_data_point _ _ Hp) as [_ Ep].
    rewrite (Hdates p (or_introl eq_refl)) in Ep.
    rewrite Ep. unfold to_point, bucket_of.
    rewrite (group_all d (e :: es) Hall). reflexivity.
  - exfalso. cbn [map] in Hnd. inversion Hnd as [| ? ? Hnotin _]; subst.
    apply Hnotin. left.
    rewrite (Hdates p (or_introl eq_refl)).
    rewrite (Hdates q (or_intror (or_introl eq_refl))). reflexivity.
Qed.

Lemma stats_single_date_witness :
  exists m s : number,
    stats [entry "2024-01-01" (num (of_Z 3)) null;
           entry "2024-01-01" (num (of_Z 5)) null] = mkStats (num m) (num s) /\
    TrendCharts_data [entry "2024-01-01" (num (of_Z 3)) null;
                      entry "2024-01-01" (num (of_Z 5)) null] =
      [mkPoint "2024-01-01" m s].
Proof.
  apply (stats_single_date "2024-01-01"
           (entry "2024-01-01" (num (of_Z 3)) null)
           [entry "2024-01-01" (num (of_Z 5)) null]).
  - reflexivity.
  - repeat constructor.
Defined.

Lemma sentiments_sum (es : list Entry) :
  fold_left (fun a b => add a (ToNumber (nullish_default (sentiment b) zero))) es zero =
  reduce_sum (sentiments es).
Proof.
  unfold reduce_sum, sentiments.
  assert (H : forall a,
    fold_left (fun a b => add a (ToNumber (nullish_default (sentiment b) zero))) es a =
    fold_left (fun a b => add a (ToNumber b))
              (map (fun e => nullish_default (sentiment e) zero) es) a).
  { induction es as [| e es IH]; intros a; [reflexivity |].
    cbn [map fold_left]. apply IH. }
  apply H.
Qed.

Lemma moods_sum_truthy (es : list Entry) :
  Forall (fun e => ToBoolean (mood e) = true) es ->
  fold_left (fun a b => add a (ToNumber (mood b))) es zero = reduce_sum (moods es).
Proof.
  intros Hall. unfold reduce_sum, moods.
  assert (H : forall a,
    fold_left (fun a b => add a (ToNumber (mood b))) es a =
    fold_left (fun a b => add a (ToNumber b))
              (map (fun e => or_default (mood e) three) es) a).
  { induction Hall as [| e es He _ IH]; intros a; [reflexivity |].
    cbn [map fold_left].
    replace (or_default (mood e) three) with (mood e)
      by (unfold or_default; now rewrite He).
    apply IH. }
  apply H.
Qed.

(** X15.  On a non-empty list the average sentiment of the quick stats is
    the [avgSentiment] of the recommendation engine rounded to two
    decimals; the average mood is the rounded [avgMood] when every mood
    is truthy.  A missing mood separates them: the stats show NaN where
    the engine counts 3. *)
Theorem stats_agree_with_engine :
  (forall e es,
      stats_avgSentiment (stats (e :: es)) = num (toFixed2 (avgSentiment (e :: es)))) /\
  (forall e es,
      Forall (fun x => ToBoolean (mood x) = true) (e :: es) ->
      stats_avgMood (stats (e :: es)) = num (toFixed2 (avgMood (e :: es)))) /\
  stats_avgMood (stats entries_missing_mood) = num NaN /\
  avgMood entries_missing_mood = lit 35 10.
Proof.
  split; [| split; [| split; vm_compute; reflexivity]].
  - intros e es. unfold stats, avgSentiment. cbn [stats_avgSentiment].
    rewrite sentiments_sum. unfold sentiments, array_length.
    now rewrite length_map.
  - intros e es Hall. unfold stats, avgMood. cbn [stats_avgMood].
    rewrite (moods_sum_truthy _ Hall). unfold moods, array_length.
    now rewrite length_map.
Qed.

Lemma stats_agree_with_engine_witness :
  stats_avgMood (stats window_high_mood_low_sentiment) =
    num (toFixed2 (avgMood window_high_mood_low_sentiment)).
Proof.
  apply (proj1 (proj2 stats_agree_with_engine)).
  repeat constructor.
Defined.

(** ** Entries saved by the check-in form *)

Lemma single_entry_data (e : Entry) :
  TrendCharts_data [e] =
    [mkPoint (date e)
       (toFixed2 (div (add zero (ToNumber (mood e))) (of_Z 1)))
       (toFixed2 (div (add zero (ToNumber (nullish_default (sentiment e) zero)))
                      (of_Z 1)))].
Proof.
  unfold TrendCharts_data, build_dataMap, forEach_body.
  cbn [fold_left lookup app update].
  rewrite String.eqb_refl. reflexivity.
Qed.

Lemma score_values_rounding (s : number) :
  In s score_values ->
  div (Math_round (mul s (of_Z 100))) (of_Z 100) = toFixed2 s /\
  toFixed2 (div (add zero s) (of_Z 1)) = toFixed2 s.
Proof.
  intros Hin.
  pose (P := fun s => same (div (Math_round (mul s (of_Z 100))) (of_Z 100)) (toFixed2 s)
                      && same (toFixed2 (div (add zero s) (of_Z 1))) (toFixed2 s)).
  assert (H : forallb P score_values = true) by (vm_compute; reflexivity).
  rewrite forallb_forall in H. specialize (H s Hin).
  apply andb_prop in H as [H1 H2]. split; apply same_eq; assumption.
Qed.

Lemma slider_mood_alone (m : Z) :
  1 <= m <= 5 -> toFixed2 (div (add zero (of_Z m)) (of_Z 1)) = of_Z m.
Proof.
  intros Hm. apply same_eq.
  apply (forallb_Zrange
           (fun m => same (toFixed2 (div (add zero (of_Z m)) (of_Z 1))) (of_Z m)) 1 5);
    [vm_compute; reflexivity | exact Hm].
Qed.

(** X16.  An entry saved by the check-in form with a mood from 1 to 5
    has a slider mood and one of the 23 scores as its sentiment; the
    sentiment printed in the list of recent check-ins is that score
    rounded to two decimals; and when its date is a calendar date
    ([YYYY-MM-DD]) the trend series of the entry alone is one point with
    its date, its mood and the same printed sentiment. *)
Theorem form_entry_consistent (e : Entry) :
  from_form e ->
  slider_mood (mood e) /\
  (exists s, sentiment e = num s /\ In s score_values) /\
  shown_sentiment e = toFixed2 (ToNumber (sentiment e)) /\
  (iso_date (date e) = true ->
   TrendCharts_data [e] = [mkPoint (date e) (ToNumber (mood e)) (shown_sentiment e)]).
Proof.
  intros (uid & d & note & created & m & Hm & ->).
  pose proof (scoreSentiment_in_values (Some note)) as Hs.
  destruct (score_values_rounding _ Hs) as [Hshown Hone].
  unfold handleSubmit_entry, shown_sentiment.
  cbn [mood sentiment date nullish_default ToNumber].
  split; [right; right; exists m; split; [exact Hm | reflexivity] |].
  split; [eexists; split; [reflexivity | exact Hs] |].
  split; [exact Hshown |].
  intros _.
  rewrite single_entry_data.
  cbn [mood sentiment date nullish_default ToNumber].
  now rewrite (slider_mood_alone m Hm), Hone, Hshown.
Qed.

Lemma form_entry_consistent_witness :
  shown_sentiment seventh_entry = lit 9 100 /\
  TrendCharts_data [seventh_entry] = [mkPoint "2024-01-06" (of_Z 4) (lit 9 100)].
Proof.
  assert (H : from_form seventh_entry).
  { exists "g", "2024-01-06", "calm evening", "", 4. split; [lia | reflexivity]. }
  destruct (form_entry_consistent seventh_entry H) as (_ & _ & Hshown & Hdata).
  split.
  - rewrite Hshown. vm_compute. reflexivity.
  - rewrite (Hdata eq_refl), Hshown. vm_compute. reflexivity.
Defined.

(** ** loadEntries *)

(** X17.  [loadEntries] never fails: with nothing stored, an empty
    string, or content that does not parse, it returns the empty list.
    Otherwise it returns one entry per parsed record, in order, with
    mood, note and sentiment untouched, and every returned entry has a
    non-empty date as long as today's date is non-empty. *)
Theorem loadEntries_dates (JSON_parse : string -> option (list ParsedEntry))
                          (today : string) :
  loadEntries JSON_parse today None = [] /\
  loadEntries JSON_parse today (Some "") = [] /\
  (forall r, JSON_parse r = None -> loadEntries JSON_parse today (Some r) = []) /\
  (forall r parsed,
      r <> "" -> JSON_parse r = Some parsed ->
      map (fun e => (eid e, mood e, note e, sentiment e, createdAt e))
          (loadEntries JSON_parse today (Some r)) =
      map (fun p => (parsed_id p, parsed_mood p, parsed_note p,
                     parsed_sentiment p, parsed_createdAt p)) parsed) /\
  (today <> "" ->
   forall raw e, In e (loadEntries JSON_parse today raw) -> date e <> "").
Proof.
  split; [reflexivity | split; [reflexivity | split; [| split]]].
  - intros r H. unfold loadEntries. rewrite H. now destruct r.
  - intros r parsed Hr H. unfold loadEntries. rewrite H.
    destruct r as [| c r]; [congruence |].
    rewrite map_map. reflexivity.
  - intros Htoday raw e. unfold loadEntries.
    destruct raw as [[| c r] |]; try contradiction.
    destruct (JSON_parse (String c r)) as [parsed |]; [| contradiction].
    intros Hin. apply in_map_iff in Hin as (p & <- & _).
    unfold with_date. cbn [date].
    destruct (parsed_date p) as [[| c' d] |]; [exact Htoday | discriminate | exact Htoday].
Qed.

Lemma loadEntries_dates_witness :
  date (with_date "2024-03-01" (mkParsed "b" (Some "") undefined "" undefined "")) <> "".
Proof.
  apply (proj2 (proj2 (proj2 (proj2
           (loadEntries_dates
              (fun _ => Some [mkParsed "a" None (num (of_Z 3)) "fine" (num zero) "";
                              mkParsed "b" (Some "") undefined "" undefined ""])
              "2024-03-01"))))
         ltac:(discriminate) (Some "[...]")).
  right. left. reflexivity.
Defined.

(** ** Sums and means that are never NaN *)

Lemma shr_1_nonneg (mrs : shr_record) : 0 <= shr_m mrs -> 0 <= shr_m (shr_1 mrs).
Proof.
  destruct mrs as [m r s]. destruct m as [| [p | p |] | p]; cbn; lia.
Qed.

Lemma iter_pos_preserves {A : Type} (P : A -> Prop) (f : A -> A) :
  (forall x, P x -> P (f x)) -> forall k x, P x -> P (iter_pos f k x).
Proof.
  intros Hf. induction k as [k IH | k IH |]; intros x Hx; cbn [iter_pos]; auto.
Qed.

Lemma shr_fexp_nonneg (m e : Z) (l : location) :
  0 <= m -> 0 <= shr_m (fst (shr_fexp prec emax m e l)).
Proof.
  intros Hm. unfold shr_fexp, shr.
  assert (H0 : 0 <= shr_m (shr_record_of_loc m l)) by (destruct l as [| []]; exact Hm).
  destruct (fexp prec emax (Zdigits2 m + e) - e); cbn [fst]; try exact H0.
  apply (iter_pos_preserves (fun mrs => 0 <= shr_m mrs)); [apply shr_1_nonneg | exact H0].
Qed.

Lemma round_nearest_even_nonneg (m : Z) (l : location) :
  0 <= m -> 0 <= round_nearest_even m l.
Proof.
  intros Hm. destruct l as [| []]; cbn [round_nearest_even]; try lia.
  destruct (Z.even m); lia.
Qed.

Lemma binary_round_aux_not_nan (s : bool) (m e : Z) (l : location) :
  0 <= m -> is_nan (binary_round_aux prec emax s m e l) = false.
Proof.
  intros Hm. unfold binary_round_aux.
  pose proof (shr_fexp_nonneg m e l Hm) as H1.
  destruct (shr_fexp prec emax m e l) as [mrs' e']. cbn [fst] in H1.
  pose proof (shr_fexp_nonneg _ e' loc_Exact
                (round_nearest_even_nonneg _ (loc_of_shr_record mrs') H1)) as H2.
  destruct (shr_fexp prec emax (round_nearest_even (shr_m mrs') (loc_of_shr_record mrs'))
              e' loc_Exact) as [mrs'' e'']. cbn [fst] in H2.
  destruct (shr_m mrs'') as [| p | p]; [reflexivity | | lia].
  destruct (e'' <=? emax - prec); reflexivity.
Qed.

Lemma binary_normalize_not_nan (m e : Z) (s : bool) :
  is_nan (binary_normalize prec emax m e s) = false.
Proof.
  destruct m as [| p | p]; [reflexivity | |];
    cbn [binary_normalize]; unfold binary_round;
    destruct (shl_align _ _ _) as [mz ez];
    apply binary_round_aux_not_nan; lia.
Qed.

Lemma add_not_nan (x y : number) :
  is_nan x = false -> is_finite y = true -> is_nan (add x y) = false.
Proof.
  intros Hx Hy.
  destruct x as [sx | sx | | sx mx ex], y as [sy | sy | | sy my ey];
    try discriminate; try reflexivity.
  - destruct sx, sy; reflexivity.
  - apply binary_normalize_not_nan.
Qed.

Lemma digits2_pos_le (p : positive) : 2 ^ (Zpos (digits2_pos p) - 1) <= Zpos p.
Proof.
  induction p as [p IH | p IH |]; cbn [digits2_pos]; [| | cbn; lia];
    rewrite Pos2Z.inj_succ;
    replace (Z.succ (Zpos (digits2_pos p)) - 1) with (Z.succ (Zpos (digits2_pos p) - 1)) by lia;
    rewrite Z.pow_succ_r by lia; lia.
Qed.

Lemma digits2_pos_shift (p k : positive) :
  Zpos (digits2_pos (Pos.iter xO p k)) = Zpos (digits2_pos p) + Zpos k.
Proof.
  induction k as [| k IH] using Pos.peano_ind.
  - cbn [Pos.iter digits2_pos]. lia.
  - rewrite Pos.iter_succ. cbn [digits2_pos]. lia.
Qed.

Lemma binary_round_aux_canonical (s : bool) (m : positive) (e : Z) :
  fexp prec emax (Zpos (digits2_pos m) + e) = e ->
  e <= emax - prec ->
  binary_round_aux prec emax s (Zpos m) e loc_Exact = S754_finite s m e.
Proof.
  intros Hc He. unfold binary_round_aux, shr_fexp.
  cbn [Zdigits2 shr_record_of_loc]. rewrite Hc, Z.sub_diag.
  cbn [shr shr_m loc_of_shr_record round_nearest_even Zdigits2 shr_record_of_loc].
  rewrite Hc, Z.sub_diag. cbn [shr shr_m].
  apply Z.leb_le in He. now rewrite He.
Qed.

Lemma of_Z_finite (n : Z) :
  1 <= n < 2 ^ 53 -> exists m e, of_Z n = S754_finite false m e.
Proof.
  intros Hn. destruct n as [| p | p]; try lia.
  unfold of_Z. cbn [binary_normalize]. unfold binary_round, shl_align.
  pose proof (digits2_pos_le p) as Hd.
  assert (Hd53 : Zpos (digits2_pos p) <= 53).
  { destruct (Z_le_gt_dec (Zpos (digits2_pos p)) 53) as [H | H]; [exact H |].
    assert (2 ^ 53 <= 2 ^ (Zpos (digits2_pos p) - 1)) by (apply Z.pow_le_mono_r; lia).
    lia. }
  assert (Hf : fexp prec emax (Zpos (digits2_pos p) + 0) = Zpos (digits2_pos p) - 53).
  { unfold fexp, emin, prec, emax. lia. }
  rewrite Hf.
  destruct (Zpos (digits2_pos p) - 53 - 0) as [| k | k] eqn:Ek; try lia.
  - exists p, 0. apply binary_round_aux_canonical; [| unfold emax, prec; lia].
    rewrite Hf. lia.
  - eexists. eexists. apply binary_round_aux_canonical; [| unfold emax, prec; lia].
    rewrite digits2_pos_shift. unfold fexp, emin, prec, emax. lia.
Qed.

Lemma SFdiv_core_nonneg (m1 : positive) (e1 : Z) (m2 : positive) (e2 : Z) :
  0 <= fst (fst (SFdiv_core_binary prec emax (Zpos m1) e1 (Zpos m2) e2)).
Proof.
  unfold SFdiv_core_binary.
  set (s := _ - _ - Z.min _ _).
  set (m' := match s with Zpos _ => Z.shiftl (Zpos m1) s | 0 => Zpos m1 | Zneg _ => 0 end).
  assert (Hm' : 0 <= m').
  { subst m'. destruct s; try lia. apply Z.shiftl_nonneg. lia. }
  pose proof (Z.div_pos m' (Zpos m2) Hm' ltac:(lia)) as Hq.
  unfold Z.div in Hq.
  destruct (Z.div_eucl m' (Zpos m2)) as [q r]. exact Hq.
Qed.

Lemma div_not_nan (x : number) (m : positive) (e : Z) :
  is_nan x = false -> is_nan (div x (S754_finite false m e)) = false.
Proof.
  intros Hx. destruct x as [sx | sx | | sx mx ex]; try discriminate; try reflexivity.
  unfold div, SFdiv.
  pose proof (SFdiv_core_nonneg mx ex m e) as Hq.
  destruct (SFdiv_core_binary prec emax (Zpos mx) ex (Zpos m) e) as [[mz ez] lz].
  apply binary_round_aux_not_nan. exact Hq.
Qed.

Lemma toFixed2_not_nan (x : number) : is_nan x = false -> is_nan (toFixed2 x) = false.
Proof.
  intros Hx. destruct x as [sx | sx | | sx mx ex]; try discriminate; try reflexivity.
  unfold toFixed2.
  destruct (0 <=? ex); [reflexivity |].
  destruct (hundredths mx ex); try reflexivity.
  destruct (of_Z_finite 100 ltac:(lia)) as (m & e & ->).
  now apply div_not_nan.
Qed.

Lemma fold_add_not_nan {A : Type} (f : A -> number) (l : list A) (a : number) :
  is_nan a = false ->
  Forall (fun x => is_finite (f x) = true) l ->
  is_nan (fold_left (fun a x => add a (f x)) l a) = false.
Proof.
  intros Ha Hall. revert a Ha.
  induction Hall as [| x l Hx _ IH]; intros a Ha; [exact Ha |].
  cbn [fold_left]. apply IH, add_not_nan; assumption.
Qed.

Lemma add_nan_l (y : number) : add NaN y = NaN.
Proof. reflexivity. Qed.

Lemma add_nan_r (x : number) : add x NaN = NaN.
Proof. destruct x; reflexivity. Qed.

Lemma fold_add_nan {A : Type} (f : A -> number) (l : list A) (a : number) :
  is_nan a = true \/ (exists x, In x l /\ is_nan (f x) = true) ->
  fold_left (fun a x => add a (f x)) l a = NaN.
Proof.
  revert a. induction l as [| y l IH]; intros a H.
  - destruct H as [H | (x & [] & _)]. now destruct a.
  - cbn [fold_left]. apply IH.
    destruct H as [H | (x & [<- | Hx] & Hn)].
    + left. destruct a; try discriminate. reflexivity.
    + left. destruct (f y); try discriminate. now rewrite add_nan_r.
    + right. exists x. split; assumption.
Qed.

Lemma mean_not_nan (sum : number) (n : Z) :
  1 <= n < 2 ^ 53 -> is_nan sum = false ->
  is_nan (toFixed2 (div sum (of_Z n))) = false.
Proof.
  intros Hn Hs. destruct (of_Z_finite n Hn) as (m & e & ->).
  apply toFixed2_not_nan, div_not_nan, Hs.
Qed.

Lemma group_length (d : string) (entries : list Entry) :
  array_length (group d entries) <= array_length entries.
Proof. unfold array_length, group. apply inj_le, filter_length_le. Qed.

Lemma group_nonempty (d : string) (entries : list Entry) :
  In d (map date entries) -> 1 <= array_length (group d entries).
Proof.
  intros H. apply in_map_iff in H as (e & He & Hin).
  unfold array_length, group.
  apply (inj_le 1), (filter_keeps_one _ _ e Hin). now apply String.eqb_eq.
Qed.

Lemma group_Forall (P : Entry -> Prop) (d : string) (entries : list Entry) :
  Forall P entries -> Forall P (group d entries).
Proof.
  rewrite !Forall_forall. intros H e He. apply H.
  unfold group in He. apply filter_In in He. apply He.
Qed.

(** The points of the series are free of NaN when the sums are taken
    over finite numbers. *)
Lemma TrendCharts_data_not_nan (entries : list Entry) (p : TrendPoint) :
  array_length entries < 2 ^ 32 ->
  In p (TrendCharts_data entries) ->
  (Forall (fun e => is_finite (ToNumber (mood e)) = true) entries ->
   is_nan (point_mood p) = false) /\
  (Forall (fun e => is_finite (ToNumber (nullish_default (sentiment e) zero)) = true)
          entries ->
   is_nan (point_sentiment p) = false).
Proof.
  intros Hlen Hp.
  destruct (TrendCharts_data_point entries p Hp) as [Hd ->].
  pose proof (group_length (point_date p) entries) as Hg.
  pose proof (group_nonempty (point_date p) entries Hd) as Hg1.
  remember (point_date p) as d eqn:Ed. clear Ed.
  unfold to_point, bucket_of.
  cbn [point_mood point_sentiment bucket_date moodSum count sentimentSum].
  split; intros Hall; (apply mean_not_nan; [lia |]).
  - unfold sum_mood.
    apply (fold_add_not_nan (fun e => ToNumber (mood e))); [reflexivity |].
    apply group_Forall, Hall.
  - unfold sum_sentiment.
    apply (fold_add_not_nan (fun e => ToNumber (nullish_default (sentiment e) zero)));
      [reflexivity |].
    apply group_Forall, Hall.
Qed.

(** X18.  In a series over fewer than 2^32 entries, no point has a NaN
    mood when every mood is a finite number (or [null]), and no point has
    a NaN sentiment when every sentiment is a finite number or missing.
    Conversely a single entry whose mood is missing ([undefined]) or NaN
    turns the mood of its whole date into NaN, whatever the other entries
    of that date hold. *)
Theorem TrendCharts_data_NaN :
  (forall entries p,
      array_length entries < 2 ^ 32 ->
      In p (TrendCharts_data entries) ->
      Forall (fun e => is_finite (ToNumber (mood e)) = true) entries ->
      is_nan (point_mood p) = false) /\
  (forall entries p,
      array_length entries < 2 ^ 32 ->
      In p (TrendCharts_data entries) ->
      Forall (fun e => is_finite (ToNumber (nullish_default (sentiment e) zero)) = true)
             entries ->
      is_nan (point_sentiment p) = false) /\
  (forall entries e p,
      In e entries -> is_nan (ToNumber (mood e)) = true ->
      In p (TrendCharts_data entries) -> point_date p = date e ->
      point_mood p = NaN).
Proof.
  split; [| split].
  - intros entries p Hlen Hp. apply (TrendCharts_data_not_nan entries p Hlen Hp).
  - intros entries p Hlen Hp. apply (TrendCharts_data_not_nan entries p Hlen Hp).
  - intros entries e p He Hnan Hp Hd.
    destruct (TrendCharts_data_point entries p Hp) as [_ ->].
    unfold to_point, bucket_of.
    cbn [point_mood bucket_date moodSum count] in *.
    unfold sum_mood.
    rewrite (fold_add_nan (fun e => ToNumber (mood e))); [reflexivity |].
    right. exists e. split; [| exact Hnan].
    unfold group. apply filter_In. split; [exact He |].
    apply String.eqb_eq. cbn [point_date] in Hd. now symmetry.
Qed.

Lemma TrendCharts_data_NaN_witness :
  is_nan (point_mood (mkPoint "2024-01-01" (of_Z 4) zero)) = false /\
  point_mood (mkPoint "2024-01-01" NaN (lit 25 100)) = NaN.
Proof.
  split.
  - apply (proj1 TrendCharts_data_NaN
             [entry "2024-01-01" (num (of_Z 3)) null;
              entry "2024-01-01" (num (of_Z 5)) null]).
    + vm_compute. reflexivity.
    + left. vm_compute. reflexivity.
    + repeat constructor.
  - apply (proj2 (proj2 TrendCharts_data_NaN) entries_missing_mood
             (entry "2024-01-01" undefined undefined)).
    + right. left. reflexivity.
    + reflexivity.
    + left. vm_compute. reflexivity.
    + reflexivity.
Defined.

Lemma from_form_finite (e : Entry) :
  from_form e ->
  is_finite (ToNumber (mood e)) = true /\
  is_finite (ToNumber (nullish_default (sentiment e) zero)) = true.
Proof.
  intros (uid & d & note & created & m & Hm & ->).
  unfold handleSubmit_entry. cbn [mood sentiment nullish_default ToNumber].
  split.
  - apply (forallb_Zrange (fun m => is_finite (of_Z m)) 1 5);
      [vm_compute; reflexivity | exact Hm].
  - pose proof (scoreSentiment_in_values (Some note)) as Hs.
    assert (H : forallb is_finite score_values = true) by (vm_compute; reflexivity).
    rewrite forallb_forall in H. apply H, Hs.
Qed.

(** X19.  When every entry was saved by the check-in form (fewer than
    2^32 of them), no point of the trend series has a NaN mood or a NaN
    sentiment. *)
Theorem form_entries_chart_numbers (entries : list Entry) (p : TrendPoint) :
  array_length entries < 2 ^ 32 ->
  Forall from_form entries ->
  In p (TrendCharts_data entries) ->
  is_nan (point_mood p) = false /\ is_nan (point_sentiment p) = false.
Proof.
  intros Hlen Hall Hp.
  destruct (TrendCharts_data_not_nan entries p Hlen Hp) as [Hm Hs].
  split; [apply Hm | apply Hs];
    (eapply Forall_impl; [| exact Hall]); intros e He; apply (from_form_finite e He).
Qed.

Lemma form_entries_chart_numbers_witness :
  is_nan (point_mood (mkPoint "2024-01-06" (of_Z 4) (lit 9 100))) = false /\
  is_nan (point_sentiment (mkPoint "2024-01-06" (of_Z 4) (lit 9 100))) = false.
Proof.
  apply (form_entries_chart_numbers [seventh_entry]).
  - vm_compute. reflexivity.
  - constructor; [| constructor].
    exists "g", "2024-01-06", "calm evening", "", 4. split; [lia | reflexivity].
  - left. vm_compute. reflexivity.
Defined.

(** ** The sort of the trend series *)

(** X20.  The sorted series does not depend on how the engine enumerates
    the values of the date map, nor on its sorting algorithm: sorting any
    rearrangement of the points gives the same array, and every
    rearrangement of the points that is strictly ascending by date is
    that array. *)
Theorem TrendCharts_data_canonical (entries : list Entry) (l : list TrendPoint) :
  Permutation l (map to_point (Object_values (build_dataMap entries))) ->
  sort_by by_date l = TrendCharts_data entries /\
  (StronglySorted (fun a b => String.ltb (point_date a) (point_date b) = true) l ->
   l = TrendCharts_data entries).
Proof.
  intros Hperm.
  assert (Hnd : NoDup (map point_date l)).
  { apply (Permutation_NoDup (Permutation_sym (Permutation_map point_date Hperm))).
    rewrite point_dates. apply (build_dataMap_describes entries). }
  split.
  - apply (sort_by_enumeration_order point_date l _ Hnd Hperm).
  - intros Hs.
    apply (sorted_permutation_unique point_date); [exact Hs | |].
    + apply TrendCharts_data_strictly_ascending.
    + rewrite Hperm. symmetry. apply TrendCharts_data_permutation.
Qed.

Lemma TrendCharts_data_canonical_witness :
  sort_by by_date
    (rev (map to_point (Object_values (build_dataMap window_newest_first)))) =
  TrendCharts_data window_newest_first.
Proof.
  apply (proj1 (TrendCharts_data_canonical window_newest_first _
                  (Permutation_sym (Permutation_rev _)))).
Defined.

(** ** The fallback and the cold start *)

(** X21.  The punctuation fallback outranks sentiment words: a text with
    one to five more positive than negative terms scores below the 0.5 of
    a short exclamation without any net sentiment, and only six or more
    net positive terms score above it. *)
Theorem scoreSentiment_fallback_outranks (t : string) :
  (1 <= posHits t - negHits t <= 5 ->
   lt (scoreSentiment (Some t)) (lit 1 2) = true) /\
  (6 <= posHits t - negHits t ->
   lt (lit 1 2) (scoreSentiment (Some t)) = true).
Proof.
  pose proof (hits_difference_bounds t) as Hb.
  rewrite scoreSentiment_quotient. cbv zeta.
  split; intros H.
  - assert (Hpos : (0 <? posHits t - negHits t) = true) by (apply Z.ltb_lt; lia).
    rewrite Hpos.
    apply (forallb_Zrange (fun k => lt (lit k 11) (lit 1 2)) 1 5);
      [vm_compute; reflexivity | exact H].
  - assert (Hpos : (0 <? posHits t - negHits t) = true) by (apply Z.ltb_lt; lia).
    rewrite Hpos.
    apply (forallb_Zrange (fun k => lt (lit 1 2) (lit k 11)) 6 11);
      [vm_compute; reflexivity | lia].
Qed.

Lemma scoreSentiment_fallback_outranks_witness :
  scoreSentiment (Some "Wow!") = lit 1 2 /\
  lt (scoreSentiment (Some "Wow! So happy and calm")) (lit 1 2) = true.
Proof.
  split; [vm_compute; reflexivity |].
  apply (proj1 (scoreSentiment_fallback_outranks "Wow! So happy and calm")).
  vm_compute. split; discriminate.
Defined.

(** X22.  [Recommendations] shows the two cold-start items exactly when
    there is no entry at all, and what it shows never depends on entries
    beyond the tenth. *)
Theorem Recommendations_cold_start_iff (entries : list Entry) :
  (Recommendations_recs entries = [r_default; r_walk] <-> entries = []) /\
  (forall older, (10 <= List.length entries)%nat ->
                 Recommendations_recs (entries ++ older) = Recommendations_recs entries).
Proof.
  split.
  - split; [| intros ->; reflexivity].
    destruct entries as [| e es]; [reflexivity |].
    unfold Recommendations_recs.
    destruct (firstn 10 (e :: es)) as [| x w] eqn:Ew; [discriminate Ew |].
    rewrite generateRecommendations_rules. unfold mood_tier.
    destruct (le (avgMood (x :: w)) (lit 25 10)),
             (le (avgMood (x :: w)) (lit 35 10));
      cbn [app]; intros H; injection H as H _; discriminate H.
  - intros older Hlen. unfold Recommendations_recs.
    rewrite firstn_app.
    replace (10 - List.length entries)%nat with 0%nat by lia.
    cbn [firstn]. now rewrite app_nil_r.
Qed.

Lemma Recommendations_cold_start_iff_witness :
  Recommendations_recs [] = [r_default; r_walk].
Proof.
  apply (proj2 (proj1 (Recommendations_cold_start_iff []))). reflexivity.
Defined.
